(** * Control-plane state exporter (internal/sos/exporter/export.go)

    A shallow embedding of [ControlPlaneStateExporter]: the type filter
    [shouldExport], the resource locator [customResourceGVR], the paged
    discovery loop [fetchAllCRDs], the archiver [archive] and the
    orchestrator [Export], followed by the properties of the export
    pipeline.

    Go code that talks to the outside (API clients, the afero filesystem,
    the archiver library) is embedded as state passing over a [World]:
    the host filesystem plus the sequence of calls made to collaborators.
    Console output (pterm, the spinner) and the context argument are left
    out.

    The kubeconfig helpers of internal/kube/client.go
    ([BuildControlPlaneKubeconfig], [ApplyControlPlaneKubeconfig]) follow,
    over the kubeconfig files of the host. *)

From Stdlib Require Import Ascii String ZArith.
From stdpp Require Import gmap strings list fin_maps.

Open Scope string_scope.
Open Scope list_scope.
Open Scope nat_scope.

(** ** Strings *)

(** Go's [strings.HasSuffix]:
    [len(s) >= len(suffix) && s[len(s)-len(suffix):] == suffix]. *)
Definition HasSuffix (s suffix : string) : bool :=
  (String.length suffix <=? String.length s)%nat
  && String.eqb
       (String.substring (String.length s - String.length suffix)
                         (String.length suffix) s)
       suffix.

(** ** Errors (crossplane-runtime [errors.Wrap] / [errors.Wrapf]) *)

Inductive error : Type :=
| ErrOf (msg : string)
| Wrap (cause : error) (msg : string)
| Wrapf (cause : error) (format : string) (arg : string).

(** ** Kubernetes API objects, as far as the exporter reads them *)

Record OwnerReference := {
  refAPIVersion : string;
  refKind : string;
  refName : string
}.

(** [Status] and [Scale] are pointers to structs the exporter only tests
    against nil. *)
Record CustomResourceSubresources := {
  subStatus : option unit;
  subScale : option unit
}.

Record CustomResourceDefinitionVersion := {
  vrName : string;
  vrServed : bool;
  vrStorage : bool;
  vrSubresources : option CustomResourceSubresources
}.

Record CustomResourceDefinitionNames := {
  namesPlural : string;
  namesKind : string;
  namesCategories : list string
}.

Record CustomResourceDefinitionSpec := {
  specGroup : string;
  specNames : CustomResourceDefinitionNames;
  specVersions : list CustomResourceDefinitionVersion
}.

Record CustomResourceDefinition := {
  crdObjectName : string;
  crdOwnerReferences : list OwnerReference;
  crdSpec : CustomResourceDefinitionSpec
}.

Definition GetName (in_ : CustomResourceDefinition) : string :=
  crdObjectName in_.

Definition GetOwnerReferences (in_ : CustomResourceDefinition)
  : list OwnerReference :=
  crdOwnerReferences in_.

(** ** Type filter *)

(** The loop of [shouldExport] over the owner references: return true at the
    first reference whose APIVersion is the package API version. *)
Fixpoint ownedByPackage (refs : list OwnerReference) : bool :=
  match refs with
  | [] => false
  | ref :: rest =>
      if String.eqb (refAPIVersion ref) "pkg.crossplane.io/v1" then true
      else ownedByPackage rest
  end.

Definition shouldExport (in_ : CustomResourceDefinition) : bool :=
  if ownedByPackage (GetOwnerReferences in_) then true
  else HasSuffix (GetName in_) ".crossplane.io".

(** The API group of an apiVersion string, as [schema.ParseGroupVersion]
    reads it: the text before the slash, or the empty (core) group when
    there is no slash. *)
Fixpoint beforeSlash (s : string) : option string :=
  match s with
  | EmptyString => None
  | String c rest =>
      if Ascii.eqb c "/"%char then Some EmptyString
      else option_map (String c) (beforeSlash rest)
  end.

Definition apiGroup (apiVersion : string) : string :=
  match beforeSlash apiVersion with
  | Some g => g
  | None => ""
  end.

(** The filter as the specification words it: some owner reference lies in
    the package-management API group, or the name carries the reserved
    suffix. *)
Definition spec_inScope (in_ : CustomResourceDefinition) : Prop :=
  (∃ ref, In ref (GetOwnerReferences in_)
          ∧ apiGroup (refAPIVersion ref) = "pkg.crossplane.io")
  ∨ (∃ p, GetName in_ = p +:+ ".crossplane.io").

(** ** Resource coordinates (apimachinery [schema]) *)

Record GroupKind := { gkGroup : string; gkKind : string }.

Record GroupVersionResource := {
  gvrGroup : string;
  gvrVersion : string;
  gvrResource : string
}.

Record GroupResource := { grGroup : string; grResource : string }.

Definition GetGroupResource (gvr : GroupVersionResource) : GroupResource :=
  {| grGroup := gvrGroup gvr; grResource := gvrResource gvr |}.

(** [GroupResource.String]: the resource alone for the core group,
    [resource.group] otherwise. *)
Definition GroupResourceString (gr : GroupResource) : string :=
  if (String.length (grGroup gr) =? 0)%nat then grResource gr
  else grResource gr +:+ "." +:+ grGroup gr.

(** [meta.RESTMapping]; the exporter reads its [Resource] only. *)
Record RESTMapping := { rmResource : GroupVersionResource }.

Record ListOptions := { optLimit : Z; optContinue : string }.

Record CustomResourceDefinitionList := {
  listItems : list CustomResourceDefinition;
  listContinue : string
}.

Definition GetContinue (l : CustomResourceDefinitionList) : string :=
  listContinue l.

(** A live object, schema-less: namespace (empty when cluster scoped), name
    and the rest of the document. *)
Record Unstructured := {
  objNamespace : string;
  objName : string;
  objContent : string
}.

(** [v1alpha1.TypeMeta], the per-type descriptor. *)
Record TypeMeta := {
  Categories : list string;
  WithStatusSubresource : bool
}.

(** ** Results of calls *)

Inductive result (A : Type) : Type :=
| Ok (a : A)
| Err (e : error).
Arguments Ok {A} a.
Arguments Err {A} e.

Definition isErr {A} (r : result A) : bool :=
  match r with Ok _ => false | Err _ => true end.

(** A Go call that returns only [error]: [None] is nil. *)
Definition errResult (err : option error) : result unit :=
  match err with None => Ok tt | Some e => Err e end.

(** ** The world the exporter runs in *)

(** Modelled from the spec: the export summary of section 3, as far as the
    properties read it (the per-type counts). *)
Record ExportSummary := { summaryCounts : gmap string nat }.

(** Modelled from the spec: one subtree of the staging root (section 6),
    the type descriptor and one file per instance, keyed by (namespace,
    name). *)
Record TypeDir := {
  dirMeta : option TypeMeta;
  dirInstances : gmap (string * string) Unstructured
}.

(** Modelled from the spec: the staging root (section 6), one subtree per
    exported resource, keyed by [GroupResource.String], and the top-level
    summary file. *)
Record StagingTree := {
  treeTypes : gmap string TypeDir;
  treeSummary : option ExportSummary
}.

Definition emptyDir : TypeDir := {| dirMeta := None; dirInstances := ∅ |}.
Definition emptyTree : StagingTree := {| treeTypes := ∅; treeSummary := None |}.

(** What a regular file holds: nothing yet, an archive cut short, or the
    compressed archive of a staging tree. *)
Inductive FileData : Type :=
| NoData
| PartialData
| Packed (t : StagingTree).

Record FileNode := { fileMode : Z; fileData : FileData }.

(** Calls to collaborators, each with what it returned. *)
Inductive Call : Type :=
| CallTempDir (dir pattern : string) (r : result string)
| CallRemoveAll (path : string)
| CallListCRDs (opts : ListOptions) (r : result CustomResourceDefinitionList)
| CallRESTMapping (gk : GroupKind) (version : string) (r : result RESTMapping)
| CallExportResources (meta : TypeMeta) (gvr : GroupVersionResource)
                      (r : result nat)
| CallExportMetadata (counts : gmap string nat) (r : result unit)
| CallFilesFromDisk (path : string) (r : result StagingTree)
| CallCreate (name : string) (r : result unit)
| CallChmod (name : string) (mode : Z) (r : result unit)
| CallArchive (name : string) (r : result unit)
| CallClose (name : string).

(** Directories made by [TempDir] and regular files named by the caller are
    kept in two maps: the output path is taken not to lie inside a staging
    root. *)
Record World := {
  staging : gmap string StagingTree;
  files : gmap string FileNode;
  calls : list Call
}.

Definition withStaging (f : gmap string StagingTree → gmap string StagingTree)
    (w : World) : World :=
  {| staging := f (staging w); files := files w; calls := calls w |}.

Definition withFiles (f : gmap string FileNode → gmap string FileNode)
    (w : World) : World :=
  {| staging := staging w; files := f (files w); calls := calls w |}.

Definition record_call (c : Call) (w : World) : World :=
  {| staging := staging w; files := files w; calls := calls w ++ [c] |}.

(** ** State and error passing

    A computation maps a world to a world and either a result or [None]
    when the paging loop was cut off before the server ended the listing. *)
Definition M (A : Type) : Type := World → option (result A) * World.

Definition ret {A} (a : A) : M A := λ w, (Some (Ok a), w).

Definition bind {A B} (c : M A) (k : A → M B) : M B :=
  λ w, match c w with
       | (Some (Ok a), w') => k a w'
       | (Some (Err e), w') => (Some (Err e), w')
       | (None, w') => (None, w')
       end.

Notation "'let*' x ':=' c 'in' k" := (bind c (λ x, k))
  (at level 10, x binder, c at level 100, k at level 200, only parsing).

Definition lift {A} (r : result A) : M A := λ w, (Some r, w).

Definition modify (f : World → World) : M unit := λ w, (Some (Ok tt), f w).

(** Run an external call and enter it, with its result, in the call log. *)
Definition logged {A} (c : M A) (ev : result A → Call) : M A :=
  λ w, match c w with
       | (Some r, w') => (Some r, record_call (ev r) w')
       | (None, w') => (None, w')
       end.

(** [errors.Wrap(err, msg)] on the error path of a call. *)
Definition wrap {A} (c : M A) (msg : string) : M A :=
  λ w, match c w with
       | (Some (Err e), w') => (Some (Err (Wrap e msg)), w')
       | other => other
       end.

(** [errors.Wrapf(err, format, arg)] with one [%q] argument. *)
Definition wrapf {A} (c : M A) (format arg : string) : M A :=
  λ w, match c w with
       | (Some (Err e), w') => (Some (Err (Wrapf e format arg)), w')
       | other => other
       end.

(** Go's [defer]: the deferred call runs when the function returns, with a
    value or an error; its own result is dropped. *)
Definition defer {A} (deferred : M unit) (body : M A) : M A :=
  λ w, match body w with
       | (Some r, w') => (Some r, snd (deferred w'))
       | (None, w') => (None, w')
       end.

(** ** Collaborators *)

(** The host: the OS filesystem behind afero and the archiver library.
    Each field says how the corresponding call ends on this host. *)
Record Host := {
  (* afero [TempDir(dir, pattern)]: the fresh directory it made *)
  osTempDir : string → string → result string;
  (* the process umask, applied by [Create] to a new file *)
  osUmask : Z;
  osCreate : string → option error;
  osChmod : string → Z → option error;
  (* archiver [FilesFromDisk] and [CompressedArchive.Archive] *)
  libFilesFromDisk : string → option error;
  libArchive : string → option error;
  (* writing one instance file below a staging root *)
  osWriteInstance : string → Unstructured → option error;
  (* probing the control plane and writing the summary file *)
  osWriteMetadata : option error
}.

Record Options := { OutputArchive : string }.

(** [ControlPlaneStateExporter]: the clients it was built with, each as the
    function from request to response the exporter sees. The discovery and
    apps clients only feed the metadata exporter. *)
Record ControlPlaneStateExporter := {
  crdClient : ListOptions → result CustomResourceDefinitionList;
  dynamicClient : GroupVersionResource → result (list Unstructured);
  resourceMapper : GroupKind → string → result RESTMapping;
  options : Options
}.

(** Owner read and write, nothing for group and others: octal 0600. *)
Definition ownerOnly : Z := 0x180%Z.

Section Exporter.

(** The page size of every list call, a constant of the package declared
    outside export.go. *)
Variable defaultPageSize : Z.

Variable host : Host.

(** *** Filesystem calls (afero) *)

Definition TempDir (dir pattern : string) : M string :=
  logged
    (let* name := lift (osTempDir host dir pattern) in
     let* _ := modify (withStaging (insert name emptyTree)) in
     ret name)
    (CallTempDir dir pattern).

(** The source drops the error of [RemoveAll]; the call is embedded by what
    it does when it works. *)
Definition RemoveAll (path : string) : M unit :=
  let* _ := modify (withStaging (delete path)) in
  modify (record_call (CallRemoveAll path)).

(** [os.Create]: a new file gets mode 0666 less the umask, an existing file
    is cut to length zero and keeps its mode. *)
Definition createNode (old : option FileNode) : FileNode :=
  match old with
  | Some f => {| fileMode := fileMode f; fileData := NoData |}
  | None => {| fileMode := Z.ldiff 0x1b6%Z (osUmask host); fileData := NoData |}
  end.

Definition Create (name : string) : M unit :=
  logged
    (let* _ := lift (errResult (osCreate host name)) in
     modify (λ w, withFiles (insert name (createNode (files w !! name))) w))
    (CallCreate name).

Definition Chmod (name : string) (mode : Z) : M unit :=
  logged
    (let* _ := lift (errResult (osChmod host name mode)) in
     modify (withFiles (alter (λ f, {| fileMode := mode;
                                        fileData := fileData f |}) name)))
    (CallChmod name mode).

Definition Close (name : string) : M unit :=
  modify (record_call (CallClose name)).

(** *** Archiver library *)

(** [archiver.FilesFromDisk]: walks the directory; what it collects is the
    tree that [Archive] will read. *)
Definition FilesFromDisk (dir : string) (path : string) : M StagingTree :=
  logged
    (λ w, match staging w !! dir with
          | None => (Some (Err (ErrOf "no such file or directory")), w)
          | Some t =>
              match libFilesFromDisk host path with
              | Some err => (Some (Err err), w)
              | None => (Some (Ok t), w)
              end
          end)
    (CallFilesFromDisk path).

Definition setData (d : FileData) (f : FileNode) : FileNode :=
  {| fileMode := fileMode f; fileData := d |}.

(** [CompressedArchive.Archive(ctx, out, files)]: writes the archive to the
    open file; a failure leaves what was written so far. *)
Definition Archive (out : string) (t : StagingTree) : M unit :=
  logged
    (match libArchive host out with
     | Some err =>
         let* _ := modify (withFiles (alter (setData PartialData) out)) in
         lift (Err err)
     | None => modify (withFiles (alter (setData (Packed t)) out))
     end)
    (CallArchive out).

Variable e : ControlPlaneStateExporter.

(** ** The exporter *)

(** The loop of [customResourceGVR]: every version flagged as storage
    overwrites the choice. *)
Fixpoint storageVersion (version : string)
    (versions : list CustomResourceDefinitionVersion) : string :=
  match versions with
  | [] => version
  | vr :: rest =>
      storageVersion (if vrStorage vr then vrName vr else version) rest
  end.

Definition RESTMappingCall (gk : GroupKind) (version : string)
  : M RESTMapping :=
  logged (lift (resourceMapper e gk version)) (CallRESTMapping gk version).

Definition customResourceGVR (in_ : CustomResourceDefinition)
  : M GroupVersionResource :=
  let version := storageVersion "" (specVersions (crdSpec in_)) in
  let* rm :=
    wrapf (RESTMappingCall
             {| gkGroup := specGroup (crdSpec in_);
                gkKind := namesKind (specNames (crdSpec in_)) |}
             version)
          "cannot get REST mapping for %q" (GetName in_) in
  ret (rmResource rm).

Definition archive (dir : string) : M unit :=
  let* files := FilesFromDisk dir (dir +:+ "/") in
  let* _ := Create (OutputArchive (options e)) in
  defer (Close (OutputArchive (options e)))
    (let* _ := Chmod (OutputArchive (options e)) ownerOnly in
     Archive (OutputArchive (options e)) files).

Definition ListCRDs (opts : ListOptions) : M CustomResourceDefinitionList :=
  logged (lift (crdClient e opts)) (CallListCRDs opts).

(** The [for] loop of [fetchAllCRDs]; [fuel] bounds the number of pages
    asked for. *)
Fixpoint fetchLoop (fuel : nat) (crds : list CustomResourceDefinition)
    (continueToken : string) : M (list CustomResourceDefinition) :=
  match fuel with
  | O => λ w, (None, w)
  | S fuel' =>
      let* l :=
        wrap (ListCRDs {| optLimit := defaultPageSize;
                          optContinue := continueToken |})
             "cannot list CRDs" in
      let crds := crds ++ listItems l in
      let continueToken := GetContinue l in
      if String.eqb continueToken "" then ret crds
      else fetchLoop fuel' crds continueToken
  end.

Definition fetchAllCRDs (fuel : nat) : M (list CustomResourceDefinition) :=
  fetchLoop fuel [] "".

(** *** Persister and metadata exporter

    The files of a staging root follow the layout of section 6 of the
    specification: one subtree per exported resource with its descriptor
    and one file per instance, and one summary at the top. *)

Definition typeDirOf (t : StagingTree) (key : string) : TypeDir :=
  default emptyDir (treeTypes t !! key).

Definition treeAt (w : World) (root : string) : StagingTree :=
  default emptyTree (staging w !! root).

(** Modelled from the spec: writing the descriptor file of a subtree
    (section 4.4, source outside export.go). *)
Definition putMeta (key : string) (meta : TypeMeta) (t : StagingTree)
  : StagingTree :=
  {| treeTypes :=
       <[key := {| dirMeta := Some meta;
                   dirInstances := dirInstances (typeDirOf t key) |}]>
         (treeTypes t);
     treeSummary := treeSummary t |}.

(** Modelled from the spec: writing one instance file of a subtree
    (section 4.4, source outside export.go). *)
Definition putInstance (key : string) (obj : Unstructured) (t : StagingTree)
  : StagingTree :=
  {| treeTypes :=
       <[key := {| dirMeta := dirMeta (typeDirOf t key);
                   dirInstances :=
                     <[(objNamespace obj, objName obj) := obj]>
                       (dirInstances (typeDirOf t key)) |}]>
         (treeTypes t);
     treeSummary := treeSummary t |}.

(** Modelled from the spec: writing the summary file (stage 4 of section
    4.5, source outside export.go). *)
Definition putSummary (s : ExportSummary) (t : StagingTree) : StagingTree :=
  {| treeTypes := treeTypes t; treeSummary := Some s |}.

Definition updTree (root : string) (f : StagingTree → StagingTree)
  : World → World :=
  withStaging (λ s, <[root := f (default emptyTree (s !! root))]> s).

(** Modelled from the spec: the persister of section 4.4, whose source
    (FileSystemPersister) is outside export.go. [recordType] writes the
    descriptor at the per-type location. The subtree of a type is named by
    its (group, resource) identity, the key of its count. *)
Definition recordType (root key : string) (meta : TypeMeta) : M unit :=
  modify (updTree root (putMeta key meta)).

(** Modelled from the spec: [recordInstance] of section 4.4, source outside
    export.go. One file per instance at a path made of the type's subtree,
    the namespace and the name; a path already taken is a fatal collision. *)
Definition recordInstance (root key : string) (obj : Unstructured) : M unit :=
  λ w, match osWriteInstance host key obj with
       | Some err => (Some (Err err), w)
       | None =>
           match dirInstances (typeDirOf (treeAt w root) key)
                   !! (objNamespace obj, objName obj) with
           | Some _ => (Some (Err (ErrOf "path collision")), w)
           | None => (Some (Ok tt), updTree root (putInstance key obj) w)
           end
       end.

(** Modelled from the spec: persisting each fetched instance in turn (stage
    3 of section 4.5); the first failure ends it. *)
Fixpoint recordInstances (root key : string) (objs : list Unstructured)
  : M unit :=
  match objs with
  | [] => ret tt
  | obj :: rest =>
      let* _ := recordInstance root key obj in
      recordInstances root key rest
  end.

(** Modelled from the spec: [UnstructuredExporter.ExportResources] (stage 3
    of section 4.5), source outside export.go. Writes the descriptor,
    fetches every instance of the coordinate (the paginated fetcher of
    section 4.3, taken by the sequence it yields), persists each one and
    returns how many there were. *)
Definition ExportResources (root : string) (meta : TypeMeta)
    (gvr : GroupVersionResource) : M nat :=
  let key := GroupResourceString (GetGroupResource gvr) in
  logged
    (let* _ := recordType root key meta in
     let* objs := wrap (lift (dynamicClient e gvr)) "cannot fetch resources" in
     let* _ := wrap (recordInstances root key objs)
                    "cannot persist resources" in
     ret (length objs))
    (CallExportResources meta gvr).

(** Modelled from the spec: [PersistentMetadataExporter.ExportMetadata]
    (stage 4 of section 4.5), source outside export.go. Writes the summary
    with the counts it is given; the probe of the control plane and the
    write may fail. *)
Definition ExportMetadata (root : string) (opts : Options)
    (crCounts : gmap string nat) : M unit :=
  logged
    (let* _ := lift (errResult (osWriteMetadata host)) in
     modify (updTree root (putSummary {| summaryCounts := crCounts |})))
    (CallExportMetadata crCounts).

(** *** Orchestrator *)

(** The loop over [crd.Spec.Versions] in [Export] that sets [sub]. *)
Fixpoint hasStatusSubresource
    (versions : list CustomResourceDefinitionVersion) : bool :=
  match versions with
  | [] => false
  | vr :: rest =>
      if vrStorage vr
         && match vrSubresources vr with
            | Some subresources =>
                match subStatus subresources with
                | Some _ => true
                | None => false
                end
            | None => false
            end
      then true
      else hasStatusSubresource rest
  end.

Definition typeMetaOf (crd : CustomResourceDefinition) : TypeMeta :=
  {| Categories := namesCategories (specNames (crdSpec crd));
     WithStatusSubresource :=
       hasStatusSubresource (specVersions (crdSpec crd)) |}.

(** The loop of [Export] over [exportList], with [crCounts] as it stands. *)
Fixpoint exportTypes (tmpDir : string)
    (exportList : list CustomResourceDefinition)
    (crCounts : gmap string nat) : M (gmap string nat) :=
  match exportList with
  | [] => ret crCounts
  | crd :: rest =>
      let* gvr := wrapf (customResourceGVR crd)
                        "cannot get GVR for %q" (GetName crd) in
      let* count := wrapf (ExportResources tmpDir (typeMetaOf crd) gvr)
                          "cannot export resources for %q" (GetName crd) in
      exportTypes tmpDir rest
        (<[GroupResourceString (GetGroupResource gvr) := count]> crCounts)
  end.

(** [total], the sum over [crCounts]; [Export] computes it and does not use
    it. *)
Definition totalCount (crCounts : gmap string nat) : nat :=
  map_fold (λ _ count total, total + count) 0 crCounts.

Definition Export (fuel : nat) : M unit :=
  let* tmpDir := wrap (TempDir "" "up") "cannot create temporary directory" in
  defer (RemoveAll tmpDir)
    (let* crdList := wrap (fetchAllCRDs fuel) "cannot fetch CRDs" in
     let exportList := List.filter shouldExport crdList in
     let* crCounts := exportTypes tmpDir exportList ∅ in
     let* _ := wrap (ExportMetadata tmpDir (options e) crCounts)
                    "cannot write export metadata" in
     wrap (archive tmpDir) "cannot archive exported state").

End Exporter.

(** ** A small control plane to run the exporter on *)

Definition mkVersion (name : string) (storage status : bool)
  : CustomResourceDefinitionVersion :=
  {| vrName := name;
     vrServed := true;
     vrStorage := storage;
     vrSubresources :=
       if status then Some {| subStatus := Some tt; subScale := None |}
       else None |}.

Definition mkCRD (plural kind group : string) (refs : list OwnerReference)
    (versions : list CustomResourceDefinitionVersion)
  : CustomResourceDefinition :=
  {| crdObjectName := plural +:+ "." +:+ group;
     crdOwnerReferences := refs;
     crdSpec := {| specGroup := group;
                   specNames := {| namesPlural := plural;
                                   namesKind := kind;
                                   namesCategories := ["crossplane"] |};
                   specVersions := versions |} |}.

Definition ownerRef (apiVersion kind name : string) : OwnerReference :=
  {| refAPIVersion := apiVersion; refKind := kind; refName := name |}.

(** A core type, by its name. *)
Definition crdCompositions : CustomResourceDefinition :=
  mkCRD "compositions" "Composition" "apiextensions.crossplane.io" []
        [mkVersion "v1" true false].

(** A type installed by a provider package, with a status subresource. *)
Definition crdBuckets : CustomResourceDefinition :=
  mkCRD "buckets" "Bucket" "s3.aws.upbound.io"
        [ownerRef "pkg.crossplane.io/v1" "ProviderRevision" "provider-aws-s3"]
        [mkVersion "v1beta1" false true; mkVersion "v1beta2" true true].

(** A type of somebody else. *)
Definition crdComposites : CustomResourceDefinition :=
  mkCRD "composites" "Composite" "example.org" [] [mkVersion "v1" true false].

(** A type owned by an object of the package group at another version. *)
Definition crdWidgets : CustomResourceDefinition :=
  mkCRD "widgets" "Widget" "example.org"
        [ownerRef "pkg.crossplane.io/v1beta1" "FunctionRevision" "fn"]
        [mkVersion "v1" true false].

(** A type with no version flagged as storage. *)
Definition crdLocks : CustomResourceDefinition :=
  mkCRD "locks" "Lock" "pkg.crossplane.io" [] [mkVersion "v1beta1" false false].

(** The same, but not in scope. *)
Definition crdGadgets : CustomResourceDefinition :=
  mkCRD "gadgets" "Gadget" "example.org" [] [mkVersion "v1" false false].

(** Two versions flagged as storage. *)
Definition crdTwoStorage : CustomResourceDefinition :=
  mkCRD "queues" "Queue" "sqs.aws.crossplane.io" []
        [mkVersion "v1alpha1" true true; mkVersion "v1" true false;
         mkVersion "v2" false false].

Definition obj (namespace name : string) : Unstructured :=
  {| objNamespace := namespace; objName := name; objContent := "spec" |}.

(** A host on which every call works, with the usual umask 022. *)
Definition goodHost : Host :=
  {| osTempDir := λ _ _, Ok "/tmp/up1";
     osUmask := 0x12%Z;
     osCreate := λ _, None;
     osChmod := λ _ _, None;
     libFilesFromDisk := λ _, None;
     libArchive := λ _, None;
     osWriteInstance := λ _ _, None;
     osWriteMetadata := None |}.

Definition withFaults (create chmod write metadata : option error) : Host :=
  {| osTempDir := λ _ _, Ok "/tmp/up1";
     osUmask := 0x12%Z;
     osCreate := λ _, create;
     osChmod := λ _ _, chmod;
     libFilesFromDisk := λ _, None;
     libArchive := λ _, write;
     osWriteInstance := λ _ _, None;
     osWriteMetadata := metadata |}.

(** A server that lists [pages] one after the other: the token of a page
    is its index, the last page has the empty token. *)
Definition pageToken (i : nat) : string :=
  String (ascii_of_nat (48 + i)) "".

Definition servePages (pages : list (list CustomResourceDefinition))
    (opts : ListOptions) : result CustomResourceDefinitionList :=
  let i := if String.eqb (optContinue opts) "" then 0
           else nat_of_ascii (default "0"%char
                                (String.get 0 (optContinue opts))) - 48 in
  match pages !! i with
  | Some items =>
      Ok {| listItems := items;
            listContinue := if (S i <? length pages)%nat
                            then pageToken (S i) else "" |}
  | None => Err (ErrOf "410 Gone")
  end.

(** A mapper that knows every kind at every named version, by adding an
    [s] to the kind; it refuses the empty version when [strict]. *)
Definition pluralMapper (strict : bool) (gk : GroupKind) (version : string)
  : result RESTMapping :=
  if strict && String.eqb version "" then Err (ErrOf "no matches for kind")
  else Ok {| rmResource := {| gvrGroup := gkGroup gk;
                              gvrVersion := version;
                              gvrResource := gkKind gk +:+ "s" |} |}.

Definition instancesOf (gvr : GroupVersionResource)
  : result (list Unstructured) :=
  if String.eqb (gvrResource gvr) "Buckets"
  then Ok [obj "" "logs"; obj "" "assets"]
  else if String.eqb (gvrResource gvr) "Compositions"
  then Ok [obj "" "xnetwork"]
  else Ok [].

Definition plane (pages : list (list CustomResourceDefinition))
    (strict : bool) : ControlPlaneStateExporter :=
  {| crdClient := servePages pages;
     dynamicClient := instancesOf;
     resourceMapper := pluralMapper strict;
     options := {| OutputArchive := "sos.tar.gz" |} |}.

Definition emptyWorld : World :=
  {| staging := ∅; files := ∅; calls := [] |}.

(** Three types in two pages. *)
Definition twoPages : list (list CustomResourceDefinition) :=
  [[crdCompositions; crdComposites]; [crdBuckets]].

Definition twoPagesServed : list CustomResourceDefinitionList :=
  [{| listItems := [crdCompositions; crdComposites]; listContinue := "1" |};
   {| listItems := [crdBuckets]; listContinue := "" |}].

(** Two types of one kind: the second one clashes with the first and is
    not served, but it is listed. The mapper resolves the kind to the
    resource that is served, at the version asked for. *)
Definition crdFoos : CustomResourceDefinition :=
  mkCRD "foos" "Foo" "acme.crossplane.io" [] [mkVersion "v1" true false].

Definition crdBars : CustomResourceDefinition :=
  mkCRD "bars" "Foo" "acme.crossplane.io" [] [mkVersion "v2" true false].

Definition servedMapper (gk : GroupKind) (version : string)
  : result RESTMapping :=
  Ok {| rmResource := {| gvrGroup := gkGroup gk;
                         gvrVersion := version;
                         gvrResource := "foos" |} |}.

(** What the server lists for the resource differs between the two
    requests. *)
Definition driftingInstances (gvr : GroupVersionResource)
  : result (list Unstructured) :=
  if String.eqb (gvrVersion gvr) "v1" then Ok [obj "" "a"]
  else Ok [obj "" "b"].

Definition clashingPlane : ControlPlaneStateExporter :=
  {| crdClient := servePages [[crdFoos; crdBars]];
     dynamicClient := driftingInstances;
     resourceMapper := servedMapper;
     options := {| OutputArchive := "sos.tar.gz" |} |}.

(** A server whose second page has expired, and one that never ends the
    listing. *)
Definition expiringPlane : ControlPlaneStateExporter :=
  {| crdClient := λ opts, if String.eqb (optContinue opts) ""
                          then servePages twoPages opts
                          else Err (ErrOf "410 Gone");
     dynamicClient := instancesOf;
     resourceMapper := pluralMapper true;
     options := {| OutputArchive := "sos.tar.gz" |} |}.

Definition endlessPlane : ControlPlaneStateExporter :=
  {| crdClient := λ _, Ok {| listItems := [crdCompositions];
                             listContinue := "again" |};
     dynamicClient := instancesOf;
     resourceMapper := pluralMapper true;
     options := {| OutputArchive := "sos.tar.gz" |} |}.

(** * Kubeconfig entries (internal/kube/client.go) *)

(** ** Strings *)

(** Go's [strings.ReplaceAll(s, old, new)] for a non-empty [old]: every
    non-overlapping occurrence of [old], from the left, becomes [new].
    [skip] counts the characters of an occurrence still to pass over. *)
Fixpoint replaceFrom (skip : nat) (s old new : string) : string :=
  match s with
  | EmptyString => EmptyString
  | String c rest =>
      match skip with
      | S k => replaceFrom k rest old new
      | O =>
          if String.prefix old s
          then new +:+ replaceFrom (String.length old - 1) rest old new
          else String c (replaceFrom 0 rest old new)
      end
  end.

Definition ReplaceAll (s old new : string) : string :=
  replaceFrom 0 s old new.

(** [c] occurs in [s]. *)
Fixpoint hasChar (c : ascii) (s : string) : bool :=
  match s with
  | EmptyString => false
  | String c' rest => if Ascii.eqb c' c then true else hasChar c rest
  end.

(** ** clientcmd [api.Config], as far as client.go fills it *)

Record Cluster := { clusterServer : string }.
Record AuthInfo := { authToken : string }.
Record Context := { ctxCluster : string; ctxAuthInfo : string }.

Record Config := {
  Clusters : gmap string Cluster;
  AuthInfos : gmap string AuthInfo;
  Contexts : gmap string Context;
  CurrentContext : string
}.

(** [api.NewConfig()]. *)
Definition NewConfig : Config :=
  {| Clusters := ∅; AuthInfos := ∅; Contexts := ∅; CurrentContext := "" |}.

(** [url.URL]: the path, which client.go rewrites, and the rest. *)
Record URL := { urlScheme : string; urlHost : string; urlPath : string }.

Definition UpboundK8sResource : string := "k8s".

(** [fmt.Sprintf(UpboundKubeconfigKeyFmt, strings.ReplaceAll(id, "/", "-"))]
    with the format "upbound-%s". *)
Definition controlPlaneKey (id : string) : string :=
  "upbound-" +:+ ReplaceAll id "/" "-".

(** The kubeconfig files of the host, by path, and how loading and writing
    them may fail (clientcmd [GetStartingConfig] and [ModifyConfig]). *)
Record KubeHost := {
  loadFault : string → option error;
  writeFault : string → option error
}.

Section Kube.

(** [path.Join] and [URL.String] of the Go library. *)
Variable pathJoin : list string → string.
Variable urlString : URL → string.

(** [BuildControlPlaneKubeconfig]. The URL is passed by pointer and its
    path is rewritten in place: the function is embedded with the URL as
    it leaves it. *)
Definition BuildControlPlaneKubeconfig (proxy : URL) (id token : string)
  : Config * URL :=
  let conf := NewConfig in
  let key := controlPlaneKey id in
  let proxy := {| urlScheme := urlScheme proxy;
                  urlHost := urlHost proxy;
                  urlPath := pathJoin [urlPath proxy; id;
                                       UpboundK8sResource] |} in
  ({| Clusters := <[key := {| clusterServer := urlString proxy |}]>
                    (Clusters conf);
      AuthInfos := <[key := {| authToken := token |}]> (AuthInfos conf);
      Contexts := <[key := {| ctxCluster := key; ctxAuthInfo := key |}]>
                    (Contexts conf);
      CurrentContext := key |},
   proxy).

Variable kubeHost : KubeHost.

(** [PathOptions.GetStartingConfig] with an explicit path: the config of
    the file, or a new one when there is no file. *)
Definition GetStartingConfig (path : string) (kubeconfigs : gmap string Config)
  : result Config :=
  match loadFault kubeHost path with
  | Some err => Err err
  | None => Ok (default NewConfig (kubeconfigs !! path))
  end.

(** [clientcmd.ModifyConfig] with an explicit path: the file holds the
    config afterwards. *)
Definition ModifyConfig (path : string) (conf : Config)
    (kubeconfigs : gmap string Config) : option error * gmap string Config :=
  match writeFault kubeHost path with
  | Some err => (Some err, kubeconfigs)
  | None => (None, <[path := conf]> kubeconfigs)
  end.

(** [for k, v := range src { dst[k] = v }]. *)
Definition setAll {A} (src dst : gmap string A) : gmap string A :=
  map_fold (λ k v acc, <[k := v]> acc) dst src.

(** The three [range] loops of [ApplyControlPlaneKubeconfig] and the
    assignment after them. *)
Definition applyEntries (mcpConf conf : Config) : Config :=
  {| Clusters := setAll (Clusters mcpConf) (Clusters conf);
     AuthInfos := setAll (AuthInfos mcpConf) (AuthInfos conf);
     Contexts := setAll (Contexts mcpConf) (Contexts conf);
     CurrentContext := CurrentContext mcpConf |}.

Definition ApplyControlPlaneKubeconfig (mcpConf : Config)
    (existingFilePath : string) (kubeconfigs : gmap string Config)
  : option error * gmap string Config :=
  match GetStartingConfig existingFilePath kubeconfigs with
  | Err err => (Some err, kubeconfigs)
  | Ok conf =>
      ModifyConfig existingFilePath (applyEntries mcpConf conf) kubeconfigs
  end.

End Kube.

(** A host whose kubeconfig files load and write, and plain stand-ins for
    the two library functions. *)
Definition goodKubeHost : KubeHost :=
  {| loadFault := λ _, None; writeFault := λ _, None |}.

Definition joinPlain (elems : list string) : string :=
  String.concat "/" elems.

Definition urlPlain (u : URL) : string :=
  urlScheme u +:+ "://" +:+ urlHost u +:+ urlPath u.

Definition proxyURL : URL :=
  {| urlScheme := "https"; urlHost := "proxy.upbound.io"; urlPath := "/v1" |}.

(** ** Vocabulary of the properties *)

(** The version strings of the types flagged as storage, in order. *)
Definition storageNames (versions : list CustomResourceDefinitionVersion)
  : list string :=
  map vrName (List.filter vrStorage versions).

Definition declaresStatus (vr : CustomResourceDefinitionVersion) : Prop :=
  ∃ subresources, vrSubresources vr = Some subresources
                  ∧ subStatus subresources ≠ None.

Definition GroupKindOf (in_ : CustomResourceDefinition) : GroupKind :=
  {| gkGroup := specGroup (crdSpec in_);
     gkKind := namesKind (specNames (crdSpec in_)) |}.

(** A listing cut into pages: asked with the page size and [token], the
    server answers the first page; every page but the last carries the
    token that leads to the next one, the last carries the empty token. *)
Inductive listing (pageSize : Z)
    (server : ListOptions → result CustomResourceDefinitionList)
  : string → list CustomResourceDefinitionList → Prop :=
| listing_last token page :
    server {| optLimit := pageSize; optContinue := token |} = Ok page →
    listContinue page = "" →
    listing pageSize server token [page]
| listing_next token page rest :
    server {| optLimit := pageSize; optContinue := token |} = Ok page →
    listContinue page ≠ "" →
    listing pageSize server (listContinue page) rest →
    listing pageSize server token (page :: rest).

(** The list calls that fetch [pages], the first one made with [token]. *)
Fixpoint listCalls (pageSize : Z) (token : string)
    (pages : list CustomResourceDefinitionList) : list Call :=
  match pages with
  | [] => []
  | page :: rest =>
      CallListCRDs {| optLimit := pageSize; optContinue := token |} (Ok page)
      :: listCalls pageSize (listContinue page) rest
  end.

Definition allItems (pages : list CustomResourceDefinitionList)
  : list CustomResourceDefinition :=
  concat (map listItems pages).

(** The stage of a run a call belongs to (section 4.5). *)
Inductive Stage : Type :=
| StageSetup
| StageDiscovery
| StageExport
| StageSummarize
| StageArchive
| StageCleanup.

Definition stageOf (c : Call) : Stage :=
  match c with
  | CallTempDir _ _ _ => StageSetup
  | CallRemoveAll _ => StageCleanup
  | CallListCRDs _ _ => StageDiscovery
  | CallRESTMapping _ _ _ => StageExport
  | CallExportResources _ _ _ => StageExport
  | CallExportMetadata _ _ => StageSummarize
  | CallFilesFromDisk _ _ => StageArchive
  | CallCreate _ _ => StageArchive
  | CallChmod _ _ _ => StageArchive
  | CallArchive _ _ => StageArchive
  | CallClose _ => StageArchive
  end.

Definition isExportResources (c : Call) : bool :=
  match c with CallExportResources _ _ _ => true | _ => false end.

(** The coordinate the locator resolves a type to, when the mapper knows
    it, and the key of its count. *)
Definition coordinateOf (e : ControlPlaneStateExporter)
    (crd : CustomResourceDefinition) : option GroupVersionResource :=
  match resourceMapper e (GroupKindOf crd)
          (storageVersion "" (specVersions (crdSpec crd))) with
  | Ok rm => Some (rmResource rm)
  | Err _ => None
  end.

Definition countKey (e : ControlPlaneStateExporter)
    (crd : CustomResourceDefinition) : option string :=
  option_map (λ gvr, GroupResourceString (GetGroupResource gvr))
             (coordinateOf e crd).

(** [c] is the call that exported [crd], and it returned a count. *)
Definition exportedBy (e : ControlPlaneStateExporter)
    (crd : CustomResourceDefinition) (c : Call) : Prop :=
  ∃ gvr n, coordinateOf e crd = Some gvr
           ∧ c = CallExportResources (typeMetaOf crd) gvr (Ok n).

(** The number of instance files below a staging root. *)
Definition instanceFiles (t : StagingTree) : nat :=
  map_fold (λ _ dir total, total + size (dirInstances dir)) 0 (treeTypes t).

(** The number of instance files of each subtree of a staging root. *)
Definition fileCounts (t : StagingTree) : gmap string nat :=
  (λ dir, size (dirInstances dir)) <$> treeTypes t.

(** [t'] is [t] but for the subtree [key]. *)
Definition sameBut (key : string) (t t' : StagingTree) : Prop :=
  treeSummary t' = treeSummary t
  ∧ ∀ k, k ≠ key → treeTypes t' !! k = treeTypes t !! k.

Definition record_calls (cs : list Call) (w : World) : World :=
  {| staging := staging w; files := files w; calls := calls w ++ cs |}.

(** A listing that breaks: the server answers [pages], each with a token
    that leads on, and fails the request after them with [err]. *)
Inductive brokenListing (pageSize : Z)
    (server : ListOptions → result CustomResourceDefinitionList)
  : string → list CustomResourceDefinitionList → error → Prop :=
| broken_here token err :
    server {| optLimit := pageSize; optContinue := token |} = Err err →
    brokenListing pageSize server token [] err
| broken_later token page rest err :
    server {| optLimit := pageSize; optContinue := token |} = Ok page →
    listContinue page ≠ "" →
    brokenListing pageSize server (listContinue page) rest err →
    brokenListing pageSize server token (page :: rest) err.

(** The token of the request that follows [pages]. *)
Definition nextToken (token : string)
    (pages : list CustomResourceDefinitionList) : string :=
  List.last (map listContinue pages) token.

(** The calls of the export loop over a list of types, with the counts it
    starts from and what it returns: per type a mapping request and, when
    that worked, an export; the loop goes on only after an export that
    returned a count, which it stores under the key of the type. *)
Inductive loopRun (e : ControlPlaneStateExporter)
  : list CustomResourceDefinition → gmap string nat → list Call →
    result (gmap string nat) → Prop :=
| loop_done crCounts : loopRun e [] crCounts [] (Ok crCounts)
| loop_unresolved crd rest crCounts err :
    resourceMapper e (GroupKindOf crd)
      (storageVersion "" (specVersions (crdSpec crd))) = Err err →
    loopRun e (crd :: rest) crCounts
      [CallRESTMapping (GroupKindOf crd)
         (storageVersion "" (specVersions (crdSpec crd))) (Err err)]
      (Err (Wrapf (Wrapf err "cannot get REST mapping for %q" (GetName crd))
                  "cannot get GVR for %q" (GetName crd)))
| loop_export_failed crd rest crCounts rm err :
    resourceMapper e (GroupKindOf crd)
      (storageVersion "" (specVersions (crdSpec crd))) = Ok rm →
    loopRun e (crd :: rest) crCounts
      [CallRESTMapping (GroupKindOf crd)
         (storageVersion "" (specVersions (crdSpec crd))) (Ok rm);
       CallExportResources (typeMetaOf crd) (rmResource rm) (Err err)]
      (Err (Wrapf err "cannot export resources for %q" (GetName crd)))
| loop_next crd rest crCounts rm count cs r :
    resourceMapper e (GroupKindOf crd)
      (storageVersion "" (specVersions (crdSpec crd))) = Ok rm →
    loopRun e rest
      (<[GroupResourceString (GetGroupResource (rmResource rm)) := count]>
         crCounts) cs r →
    loopRun e (crd :: rest) crCounts
      (CallRESTMapping (GroupKindOf crd)
         (storageVersion "" (specVersions (crdSpec crd))) (Ok rm)
       :: CallExportResources (typeMetaOf crd) (rmResource rm) (Ok count)
       :: cs)
      r.

(** The counts a call log yields: every export that returned a count puts
    it under the key of its coordinate, later ones over earlier ones. *)
Definition replayCounts (cs : list Call) (crCounts : gmap string nat)
  : gmap string nat :=
  fold_left
    (λ counts c,
       match c with
       | CallExportResources _ gvr (Ok count) =>
           <[GroupResourceString (GetGroupResource gvr) := count]> counts
       | _ => counts
       end)
    cs crCounts.

Definition isRemoveAll (c : Call) : bool :=
  match c with CallRemoveAll _ => true | _ => false end.

(** The six errors of a run, by the stage that failed. *)
Inductive exportError : error → Prop :=
| error_setup cause :
    exportError (Wrap cause "cannot create temporary directory")
| error_discovery cause :
    exportError (Wrap (Wrap cause "cannot list CRDs") "cannot fetch CRDs")
| error_resolution cause crd :
    shouldExport crd = true →
    exportError (Wrapf (Wrapf cause "cannot get REST mapping for %q"
                              (GetName crd))
                       "cannot get GVR for %q" (GetName crd))
| error_export cause crd :
    shouldExport crd = true →
    exportError (Wrapf cause "cannot export resources for %q" (GetName crd))
| error_summary cause :
    exportError (Wrap cause "cannot write export metadata")
| error_archive cause :
    exportError (Wrap cause "cannot archive exported state").

Definition isRESTMapping (c : Call) : bool :=
  match c with CallRESTMapping _ _ _ => true | _ => false end.

(** The request [customResourceGVR] makes for a type, with its answer. *)
Definition mappingCallOf (e : ControlPlaneStateExporter)
    (crd : CustomResourceDefinition) : Call :=
  CallRESTMapping (GroupKindOf crd)
    (storageVersion "" (specVersions (crdSpec crd)))
    (resourceMapper e (GroupKindOf crd)
       (storageVersion "" (specVersions (crdSpec crd)))).

(** * Properties *)

(** ** Strings *)

Lemma substring_all (s : string) :
  String.substring 0 (String.length s) s = s.
Proof. induction s as [|c s IH]; simpl; [reflexivity | now rewrite IH]. Qed.

Lemma length_append (p s : string) :
  String.length (p +:+ s) = String.length p + String.length s.
Proof. induction p as [|c p IH]; simpl; [reflexivity | now rewrite IH]. Qed.

Lemma substring_append (p s : string) :
  String.substring (String.length p) (String.length s) (p +:+ s) = s.
Proof.
  induction p as [|c p IH]; simpl.
  - apply substring_all.
  - exact IH.
Qed.

Lemma substring_split (s : string) (n : nat) :
  n ≤ String.length s →
  s = String.substring 0 n s
      +:+ String.substring n (String.length s - n) s.
Proof.
  revert n. induction s as [|c s IH]; intros n Hn; simpl in *.
  - destruct n; [reflexivity | lia].
  - destruct n as [|n]; simpl.
    + now rewrite substring_all.
    + rewrite (IH n) at 1 by lia. reflexivity.
Qed.

Lemma HasSuffix_spec (s suffix : string) :
  HasSuffix s suffix = true ↔ ∃ p, s = p +:+ suffix.
Proof.
  unfold HasSuffix. rewrite andb_true_iff, Nat.leb_le, String.eqb_eq. split.
  - intros [Hlen Hsub].
    exists (String.substring 0 (String.length s - String.length suffix) s).
    pose proof (substring_split s (String.length s - String.length suffix))
      as Hsplit.
    replace (String.length s - (String.length s - String.length suffix))
      with (String.length suffix) in Hsplit by lia.
    rewrite Hsub in Hsplit. apply Hsplit. lia.
  - intros [p ->]. rewrite length_append. split; [lia |].
    replace (String.length p + String.length suffix - String.length suffix)
      with (String.length p) by lia.
    apply substring_append.
Qed.

(** ** Type filter *)

Lemma ownedByPackage_spec (refs : list OwnerReference) :
  ownedByPackage refs = true
  ↔ ∃ ref, In ref refs ∧ refAPIVersion ref = "pkg.crossplane.io/v1".
Proof.
  induction refs as [|ref refs IH]; simpl.
  - split; [discriminate | intros (? & [] & _)].
  - destruct (String.eqb_spec (refAPIVersion ref) "pkg.crossplane.io/v1")
      as [Heq | Hne].
    + split; [| reflexivity]. intros _. exists ref. auto.
    + rewrite IH. split.
      * intros (r & Hin & Hr). exists r. auto.
      * intros (r & [-> | Hin] & Hr); [contradiction | eauto].
Qed.

(** The three cases of the specification: a foreign name without owners is
    left out; a name in the reserved domain is taken; so is a foreign name
    owned by a package. *)
Example shouldExport_cases :
  shouldExport crdComposites = false
  ∧ shouldExport crdCompositions = true
  ∧ shouldExport crdBuckets = true.
Proof. repeat split. Qed.

(** C1, as amended. [shouldExport] returns true exactly when some owner
    reference has the apiVersion "pkg.crossplane.io/v1" (the package group
    at version v1, compared as a whole string) or the name ends in
    ".crossplane.io", and false otherwise; being a function from the
    definition to a boolean it has no effect. Every type it accepts is in
    scope in the sense of the specification. *)
Theorem shouldExport_iff (in_ : CustomResourceDefinition) :
  let owned := ∃ ref, In ref (GetOwnerReferences in_)
                      ∧ refAPIVersion ref = "pkg.crossplane.io/v1" in
  let suffixed := ∃ p, GetName in_ = p +:+ ".crossplane.io" in
  (shouldExport in_ = true ↔ owned ∨ suffixed)
  ∧ (shouldExport in_ = false ↔ ¬ (owned ∨ suffixed))
  ∧ (shouldExport in_ = true → spec_inScope in_).
Proof.
  intros owned suffixed.
  assert (Hiff : shouldExport in_ = true ↔ owned ∨ suffixed).
  { unfold shouldExport, owned, suffixed.
    rewrite <- ownedByPackage_spec, <- HasSuffix_spec.
    destruct (ownedByPackage (GetOwnerReferences in_)); intuition congruence. }
  split; [exact Hiff |]. split.
  - rewrite <- Hiff. destruct (shouldExport in_); intuition congruence.
  - intros H. apply Hiff in H as [(ref & Hin & Hv) | Hs].
    + left. exists ref. split; [exact Hin |]. now rewrite Hv.
    + right. exact Hs.
Qed.

(** C1, counterexample. A type whose only owner is an object of the package
    group at version v1beta1, under a name outside the reserved domain, is
    in scope as the specification words it, and [shouldExport] rejects it. *)
Lemma shouldExport_other_version :
  spec_inScope crdWidgets ∧ shouldExport crdWidgets = false.
Proof.
  split; [| reflexivity].
  left. exists (ownerRef "pkg.crossplane.io/v1beta1" "FunctionRevision" "fn").
  split; [left; reflexivity | reflexivity].
Qed.

(** ** The call log *)

Lemma record_calls_nil (w : World) : record_calls [] w = w.
Proof. destruct w. unfold record_calls. simpl. now rewrite app_nil_r. Qed.

Lemma record_call_calls (c : Call) (w : World) :
  record_call c w = record_calls [c] w.
Proof. reflexivity. Qed.

Lemma record_calls_app (cs1 cs2 : list Call) (w : World) :
  record_calls cs2 (record_calls cs1 w) = record_calls (cs1 ++ cs2) w.
Proof. unfold record_calls. simpl. now rewrite app_assoc. Qed.

(** ** Resource locator *)

Lemma last_cons_default {A} (a d : A) (l : list A) :
  List.last (a :: l) d = List.last l a.
Proof.
  revert a d. induction l as [|b l IH]; intros a d; [reflexivity |].
  change (List.last (a :: b :: l) d) with (List.last (b :: l) d).
  now rewrite !IH.
Qed.

Lemma storageVersion_last (versions : list CustomResourceDefinitionVersion)
    (version : string) :
  storageVersion version versions = List.last (storageNames versions) version.
Proof.
  revert version. induction versions as [|vr rest IH]; intros version.
  - reflexivity.
  - simpl. rewrite IH. unfold storageNames. simpl.
    destruct (vrStorage vr); [| reflexivity].
    simpl map. now rewrite last_cons_default.
Qed.

(** What one call of [customResourceGVR] does: a single request to the
    mapper, for the version the loop ended on. *)
Lemma customResourceGVR_run (e : ControlPlaneStateExporter)
    (in_ : CustomResourceDefinition) (w : World) :
  customResourceGVR e in_ w =
  let version := storageVersion "" (specVersions (crdSpec in_)) in
  let r := resourceMapper e (GroupKindOf in_) version in
  (Some match r with
        | Ok rm => Ok (rmResource rm)
        | Err err =>
            Err (Wrapf err "cannot get REST mapping for %q" (GetName in_))
        end,
   record_call (CallRESTMapping (GroupKindOf in_) version r) w).
Proof.
  unfold customResourceGVR, bind, wrapf, RESTMappingCall, logged, lift, ret.
  fold (GroupKindOf in_).
  destruct (resourceMapper e (GroupKindOf in_) _); reflexivity.
Qed.

(** C10. For a type with more than one version flagged as storage,
    [customResourceGVR] asks the mapper once, for the name of the last
    storage-flagged version in declaration order, and returns the resource
    of the mapping it gets (or the mapper's error, wrapped): it neither
    fails by itself nor uses the first. *)
Theorem customResourceGVR_last_storage (e : ControlPlaneStateExporter)
    (in_ : CustomResourceDefinition) (w : World) :
  1 < length (storageNames (specVersions (crdSpec in_))) →
  let version := List.last (storageNames (specVersions (crdSpec in_))) "" in
  let r := resourceMapper e (GroupKindOf in_) version in
  customResourceGVR e in_ w =
  (Some match r with
        | Ok rm => Ok (rmResource rm)
        | Err err =>
            Err (Wrapf err "cannot get REST mapping for %q" (GetName in_))
        end,
   record_call (CallRESTMapping (GroupKindOf in_) version r) w).
Proof.
  intros _. rewrite customResourceGVR_run, storageVersion_last. reflexivity.
Qed.

(** The locator on a type with storage versions v1alpha1 and v1: it asks
    for v1. *)
Lemma customResourceGVR_last_storage_witness :
  storageNames (specVersions (crdSpec crdTwoStorage)) = ["v1alpha1"; "v1"]
  ∧ customResourceGVR (plane [] true) crdTwoStorage emptyWorld
    = (Some (Ok {| gvrGroup := "sqs.aws.crossplane.io";
                   gvrVersion := "v1";
                   gvrResource := "Queues" |}),
       record_call
         (CallRESTMapping (GroupKindOf crdTwoStorage) "v1"
            (pluralMapper true (GroupKindOf crdTwoStorage) "v1"))
         emptyWorld).
Proof.
  split; [reflexivity |].
  apply (customResourceGVR_last_storage (plane [] true) crdTwoStorage
           emptyWorld).
  simpl. lia.
Defined.

(** ** Paged discovery *)

Lemma ListCRDs_run (e : ControlPlaneStateExporter) (opts : ListOptions)
    (w : World) :
  ListCRDs e opts w
  = (Some (crdClient e opts),
     record_call (CallListCRDs opts (crdClient e opts)) w).
Proof. reflexivity. Qed.

Lemma fetchLoop_step (pageSize : Z) (e : ControlPlaneStateExporter)
    (fuel : nat) (crds : list CustomResourceDefinition) (token : string)
    (w : World) :
  fetchLoop pageSize e (S fuel) crds token w =
  let opts := {| optLimit := pageSize; optContinue := token |} in
  let w' := record_call (CallListCRDs opts (crdClient e opts)) w in
  match crdClient e opts with
  | Err err => (Some (Err (Wrap err "cannot list CRDs")), w')
  | Ok l =>
      if String.eqb (listContinue l) ""
      then (Some (Ok (crds ++ listItems l)), w')
      else fetchLoop pageSize e fuel (crds ++ listItems l) (listContinue l) w'
  end.
Proof.
  simpl. unfold bind, wrap. rewrite ListCRDs_run.
  destruct (crdClient e _) as [l | err]; [| reflexivity].
  unfold GetContinue. destruct (String.eqb (listContinue l) ""); reflexivity.
Qed.

Lemma allItems_cons (page : CustomResourceDefinitionList)
    (rest : list CustomResourceDefinitionList) :
  allItems (page :: rest) = listItems page ++ allItems rest.
Proof. reflexivity. Qed.

Lemma fetchLoop_listing (pageSize : Z) (e : ControlPlaneStateExporter)
    (token : string) (pages : list CustomResourceDefinitionList) :
  listing pageSize (crdClient e) token pages →
  ∀ fuel crds w, length pages ≤ fuel →
    fetchLoop pageSize e fuel crds token w
    = (Some (Ok (crds ++ allItems pages)),
       record_calls (listCalls pageSize token pages) w).
Proof.
  induction 1 as [token page Hpage Hlast | token page rest Hpage Hmore _ IH];
    intros fuel crds w Hfuel;
    (destruct fuel as [|fuel]; [simpl in Hfuel; lia |]);
    rewrite fetchLoop_step; cbv zeta; rewrite Hpage.
  - rewrite Hlast. simpl. unfold allItems. simpl. now rewrite app_nil_r.
  - apply String.eqb_neq in Hmore. rewrite Hmore.
    rewrite IH by (simpl in Hfuel; lia).
    rewrite record_call_calls, record_calls_app, allItems_cons, app_assoc.
    reflexivity.
Qed.

Lemma fetchLoop_cut_off (pageSize : Z) (e : ControlPlaneStateExporter)
    (token : string) (pages : list CustomResourceDefinitionList) :
  listing pageSize (crdClient e) token pages →
  ∀ fuel crds w, fuel < length pages →
    fst (fetchLoop pageSize e fuel crds token w) = None.
Proof.
  induction 1 as [token page Hpage Hlast | token page rest Hpage Hmore _ IH];
    intros fuel crds w Hfuel;
    (destruct fuel as [|fuel]; [reflexivity |]).
  - simpl in Hfuel. lia.
  - rewrite fetchLoop_step. cbv zeta. rewrite Hpage.
    apply String.eqb_neq in Hmore. rewrite Hmore.
    apply IH. simpl in Hfuel. lia.
Qed.

Lemma length_allItems (pages : list CustomResourceDefinitionList) :
  length (allItems pages)
  = sum_list (map (λ page, length (listItems page)) pages).
Proof.
  induction pages as [|page rest IH]; [reflexivity |].
  rewrite allItems_cons, length_app, IH. reflexivity.
Qed.

Lemma length_listCalls (pageSize : Z) (token : string)
    (pages : list CustomResourceDefinitionList) :
  length (listCalls pageSize token pages) = length pages.
Proof.
  revert token. induction pages as [|page rest IH]; intros token;
    [reflexivity | simpl; now rewrite IH].
Qed.

(** C2. When the server cuts the listing into the pages [pages], each but
    the last with a token and the last with the empty token,
    [fetchAllCRDs] makes exactly one list call per page, each with the page
    size constant and the token of the page before (the empty token first),
    stops at the empty token (fewer steps than pages do not end the loop),
    and returns the items of all pages in order; their number is the sum of
    the page lengths. *)
Theorem fetchAllCRDs_complete (pageSize : Z) (e : ControlPlaneStateExporter)
    (pages : list CustomResourceDefinitionList) (fuel : nat) (w : World) :
  listing pageSize (crdClient e) "" pages →
  (length pages ≤ fuel →
     fetchAllCRDs pageSize e fuel w
     = (Some (Ok (allItems pages)),
        record_calls (listCalls pageSize "" pages) w))
  ∧ (fuel < length pages → fst (fetchAllCRDs pageSize e fuel w) = None)
  ∧ length (listCalls pageSize "" pages) = length pages
  ∧ length (allItems pages)
    = sum_list (map (λ page, length (listItems page)) pages).
Proof.
  intros Hpages. unfold fetchAllCRDs. repeat split.
  - intros Hfuel. now rewrite (fetchLoop_listing _ _ _ _ Hpages).
  - intros Hfuel. now apply (fetchLoop_cut_off _ _ _ _ Hpages).
  - apply length_listCalls.
  - apply length_allItems.
Qed.

(** Three types served in two pages. *)
Lemma fetchAllCRDs_complete_witness :
  fetchAllCRDs 500 (plane twoPages true) 2 emptyWorld
  = (Some (Ok [crdCompositions; crdComposites; crdBuckets]),
     record_calls (listCalls 500 "" twoPagesServed) emptyWorld).
Proof.
  apply (fetchAllCRDs_complete 500 (plane twoPages true) twoPagesServed 2
           emptyWorld).
  - apply listing_next; [reflexivity | discriminate |].
    apply listing_last; reflexivity.
  - simpl. lia.
Defined.

(** ** The stages of a run, one by one *)

Ltac world_eq :=
  unfold record_calls, record_call, withFiles, withStaging; simpl;
  rewrite <- ?app_assoc; simpl;
  rewrite ?alter_insert_eq; simpl;
  rewrite ?alter_insert_eq, ?insert_insert_eq; reflexivity.

Lemma TempDir_run (h : Host) (dir pattern : string) (w : World) :
  TempDir h dir pattern w =
  match osTempDir h dir pattern with
  | Ok name =>
      (Some (Ok name),
       record_call (CallTempDir dir pattern (Ok name))
                   (withStaging (insert name emptyTree) w))
  | Err err =>
      (Some (Err err), record_call (CallTempDir dir pattern (Err err)) w)
  end.
Proof.
  unfold TempDir, logged, bind, lift, modify, ret.
  destruct (osTempDir h dir pattern); reflexivity.
Qed.

Lemma RemoveAll_run (path : string) (w : World) :
  RemoveAll path w
  = (Some (Ok tt),
     record_call (CallRemoveAll path) (withStaging (delete path) w)).
Proof. reflexivity. Qed.

(** The discovery loop only talks to the server: what it returns does not
    depend on the world, and it leaves directories and files alone. *)
Lemma fetchLoop_frame (pageSize : Z) (e : ControlPlaneStateExporter)
    (fuel : nat) (crds : list CustomResourceDefinition) (token : string) :
  ∃ r cs, Forall (λ c, stageOf c = StageDiscovery) cs
          ∧ ∀ w, fetchLoop pageSize e fuel crds token w
                 = (r, record_calls cs w).
Proof.
  revert crds token. induction fuel as [|fuel IH]; intros crds token.
  - exists None, []. split; [constructor |].
    intros w. simpl. now rewrite record_calls_nil.
  - set (opts := {| optLimit := pageSize; optContinue := token |}).
    destruct (crdClient e opts) as [l | err] eqn:Hl.
    + destruct (String.eqb (listContinue l) "") eqn:Hc.
      * exists (Some (Ok (crds ++ listItems l))),
          [CallListCRDs opts (Ok l)].
        split; [repeat constructor |]. intros w.
        rewrite fetchLoop_step. cbv zeta. fold opts. now rewrite Hl, Hc.
      * destruct (IH (crds ++ listItems l) (listContinue l))
          as (r & cs & Hcs & Hrun).
        exists r, (CallListCRDs opts (Ok l) :: cs).
        split; [constructor; [reflexivity | exact Hcs] |]. intros w.
        rewrite fetchLoop_step. cbv zeta. fold opts. rewrite Hl, Hc, Hrun.
        now rewrite record_call_calls, record_calls_app.
    + exists (Some (Err (Wrap err "cannot list CRDs"))),
        [CallListCRDs opts (Err err)].
      split; [repeat constructor |]. intros w.
      rewrite fetchLoop_step. cbv zeta. fold opts. now rewrite Hl.
Qed.

Lemma ExportMetadata_run (h : Host) (root : string) (opts : Options)
    (crCounts : gmap string nat) (w : World) :
  ExportMetadata h root opts crCounts w =
  match osWriteMetadata h with
  | Some err =>
      (Some (Err err), record_call (CallExportMetadata crCounts (Err err)) w)
  | None =>
      (Some (Ok tt),
       record_call (CallExportMetadata crCounts (Ok tt))
         (updTree root (putSummary {| summaryCounts := crCounts |}) w))
  end.
Proof.
  unfold ExportMetadata, logged, bind, lift, modify, errResult.
  destruct (osWriteMetadata h); reflexivity.
Qed.

Lemma archive_run (h : Host) (e : ControlPlaneStateExporter) (dir : string)
    (w : World) :
  let out := OutputArchive (options e) in
  let path := dir +:+ "/" in
  let created :=
    withFiles (insert out (createNode h (files w !! out))) w in
  let put data :=
    withFiles (insert out {| fileMode := ownerOnly; fileData := data |}) w in
  archive h e dir w =
  match staging w !! dir with
  | None =>
      let err := ErrOf "no such file or directory" in
      (Some (Err err), record_calls [CallFilesFromDisk path (Err err)] w)
  | Some t =>
      match libFilesFromDisk h path with
      | Some err =>
          (Some (Err err), record_calls [CallFilesFromDisk path (Err err)] w)
      | None =>
          match osCreate h out with
          | Some err =>
              (Some (Err err),
               record_calls [CallFilesFromDisk path (Ok t);
                             CallCreate out (Err err)] w)
          | None =>
              match osChmod h out ownerOnly with
              | Some err =>
                  (Some (Err err),
                   record_calls [CallFilesFromDisk path (Ok t);
                                 CallCreate out (Ok tt);
                                 CallChmod out ownerOnly (Err err);
                                 CallClose out]
                                created)
              | None =>
                  match libArchive h out with
                  | Some err =>
                      (Some (Err err),
                       record_calls [CallFilesFromDisk path (Ok t);
                                     CallCreate out (Ok tt);
                                     CallChmod out ownerOnly (Ok tt);
                                     CallArchive out (Err err);
                                     CallClose out]
                                    (put PartialData))
                  | None =>
                      (Some (Ok tt),
                       record_calls [CallFilesFromDisk path (Ok t);
                                     CallCreate out (Ok tt);
                                     CallChmod out ownerOnly (Ok tt);
                                     CallArchive out (Ok tt);
                                     CallClose out]
                                    (put (Packed t)))
                  end
              end
          end
      end
  end.
Proof.
  cbv zeta.
  unfold archive, FilesFromDisk, Create, Chmod, Archive, Close, defer, logged,
    bind, lift, modify, errResult.
  destruct (staging w !! dir) as [t |]; [| reflexivity].
  destruct (libFilesFromDisk h _); [reflexivity |].
  destruct (osCreate h _); [world_eq |].
  destruct (osChmod h _ _); [world_eq |].
  destruct (libArchive h _); world_eq.
Qed.

(** *** Persisting one type *)

Lemma withStaging_insert_id (w : World) (root : string) (t : StagingTree) :
  staging w !! root = Some t → withStaging (insert root t) w = w.
Proof.
  intros H. destruct w as [s f c]. unfold withStaging. simpl in *.
  now rewrite insert_id.
Qed.

Lemma withStaging_insert_twice (w : World) (root : string)
    (t1 t2 : StagingTree) :
  withStaging (insert root t2) (withStaging (insert root t1) w)
  = withStaging (insert root t2) w.
Proof. unfold withStaging. simpl. now rewrite insert_insert_eq. Qed.

Lemma sameBut_refl (key : string) (t : StagingTree) : sameBut key t t.
Proof. split; auto. Qed.

Lemma sameBut_trans (key : string) (t1 t2 t3 : StagingTree) :
  sameBut key t1 t2 → sameBut key t2 t3 → sameBut key t1 t3.
Proof.
  intros [Hs1 Ht1] [Hs2 Ht2]. split; [congruence |].
  intros k Hk. rewrite Ht2, Ht1; auto.
Qed.

Lemma typeDirOf_putInstance (key : string) (obj : Unstructured)
    (t : StagingTree) :
  typeDirOf (putInstance key obj t) key
  = {| dirMeta := dirMeta (typeDirOf t key);
       dirInstances := <[(objNamespace obj, objName obj) := obj]>
                         (dirInstances (typeDirOf t key)) |}.
Proof. unfold typeDirOf, putInstance. simpl. now rewrite lookup_insert_eq. Qed.

Lemma sameBut_putInstance (key : string) (obj : Unstructured)
    (t : StagingTree) :
  sameBut key t (putInstance key obj t).
Proof.
  split; [reflexivity |]. intros k Hk. unfold putInstance. simpl.
  now rewrite lookup_insert_ne.
Qed.

Lemma recordInstance_run (h : Host) (root key : string) (obj : Unstructured)
    (w : World) (t : StagingTree) :
  staging w !! root = Some t →
  recordInstance h root key obj w =
  match osWriteInstance h key obj with
  | Some err => (Some (Err err), w)
  | None =>
      match dirInstances (typeDirOf t key)
              !! (objNamespace obj, objName obj) with
      | Some _ => (Some (Err (ErrOf "path collision")), w)
      | None =>
          (Some (Ok tt), withStaging (insert root (putInstance key obj t)) w)
      end
  end.
Proof.
  intros H. unfold recordInstance, treeAt, updTree, withStaging.
  rewrite H. reflexivity.
Qed.

(** Persisting a list of instances: when it works, the subtree of the type
    has grown by one file per instance. *)
Lemma recordInstances_spec (h : Host) (root key : string)
    (objs : list Unstructured) (w : World) (t : StagingTree) :
  staging w !! root = Some t →
  ∃ r t', recordInstances h root key objs w
          = (Some r, withStaging (insert root t') w)
          ∧ sameBut key t t'
          ∧ (is_Some (treeTypes t !! key) → is_Some (treeTypes t' !! key))
          ∧ (r = Ok tt →
             size (dirInstances (typeDirOf t' key))
             = size (dirInstances (typeDirOf t key)) + length objs).
Proof.
  revert w t. induction objs as [|obj rest IH]; intros w t Ht.
  - exists (Ok tt), t. simpl. unfold ret.
    rewrite (withStaging_insert_id _ _ _ Ht).
    repeat split; auto using sameBut_refl.
  - simpl. unfold bind. rewrite (recordInstance_run _ _ _ _ _ _ Ht).
    destruct (osWriteInstance h key obj) as [err |].
    { exists (Err err), t. rewrite (withStaging_insert_id _ _ _ Ht).
      repeat split; auto using sameBut_refl. discriminate. }
    destruct (dirInstances (typeDirOf t key) !! _) as [old |] eqn:Hfree.
    { exists (Err (ErrOf "path collision")), t.
      rewrite (withStaging_insert_id _ _ _ Ht).
      repeat split; auto using sameBut_refl. discriminate. }
    set (t1 := putInstance key obj t).
    destruct (IH (withStaging (insert root t1) w) t1)
      as (r & t' & Hrun & Hsame & Hdir & Hsize).
    { unfold withStaging. simpl. apply lookup_insert_eq. }
    exists r, t'. rewrite Hrun, withStaging_insert_twice.
    split; [reflexivity |]. split; [| split].
    + eapply sameBut_trans; [apply sameBut_putInstance | exact Hsame].
    + intros _. apply Hdir. unfold t1, putInstance. simpl.
      rewrite lookup_insert_eq. eauto.
    + intros Hr. rewrite (Hsize Hr). unfold t1.
      rewrite typeDirOf_putInstance. simpl.
      rewrite (map_size_insert_None _ _ _ Hfree). lia.
Qed.

Lemma sameBut_putMeta (key : string) (meta : TypeMeta) (t : StagingTree) :
  sameBut key t (putMeta key meta t).
Proof.
  split; [reflexivity |]. intros k Hk. unfold putMeta. simpl.
  now rewrite lookup_insert_ne.
Qed.

Lemma ExportResources_spec (h : Host) (e : ControlPlaneStateExporter)
    (root : string) (meta : TypeMeta) (gvr : GroupVersionResource)
    (w : World) :
  let key := GroupResourceString (GetGroupResource gvr) in
  ∃ r t', ExportResources h e root meta gvr w
          = (Some r,
             record_call (CallExportResources meta gvr r)
                         (withStaging (insert root t') w))
          ∧ sameBut key (treeAt w root) t'
          ∧ is_Some (treeTypes t' !! key)
          ∧ ∀ n, r = Ok n →
                 size (dirInstances (typeDirOf t' key))
                 = size (dirInstances (typeDirOf (treeAt w root) key)) + n.
Proof.
  intros key. unfold ExportResources, logged, bind at 1, recordType, modify.
  fold key. set (t0 := putMeta key meta (treeAt w root)).
  change (updTree root (putMeta key meta) w)
    with (withStaging (insert root t0) w).
  assert (Hkey0 : is_Some (treeTypes t0 !! key)).
  { unfold t0, putMeta. simpl. rewrite lookup_insert_eq. eauto. }
  assert (Hsize0 : dirInstances (typeDirOf t0 key)
                   = dirInstances (typeDirOf (treeAt w root) key)).
  { unfold t0, putMeta, typeDirOf at 1. simpl.
    now rewrite lookup_insert_eq. }
  unfold bind at 1, wrap, lift.
  destruct (dynamicClient e gvr) as [objs | err].
  - destruct (recordInstances_spec h root key objs
                (withStaging (insert root t0) w) t0)
      as (r & t' & Hrun & Hsame & Hdir & Hsize).
    { unfold withStaging. simpl. apply lookup_insert_eq. }
    unfold bind. rewrite Hrun, withStaging_insert_twice.
    assert (Hsame' : sameBut key (treeAt w root) t')
      by (eapply sameBut_trans; [apply sameBut_putMeta | exact Hsame]).
    destruct r as [[] | err].
    + exists (Ok (length objs)), t'. unfold ret.
      repeat split; try apply Hsame'; auto.
      intros n [= <-]. rewrite Hsize by reflexivity. now rewrite Hsize0.
    + exists (Err (Wrap err "cannot persist resources")), t'.
      repeat split; try apply Hsame'; auto. discriminate.
  - exists (Err (Wrap err "cannot fetch resources")), t0.
    repeat split; try apply sameBut_putMeta; auto. discriminate.
Qed.

(** *** The export loop *)

Lemma exportTypes_cons (h : Host) (e : ControlPlaneStateExporter)
    (tmpDir : string) (crd : CustomResourceDefinition)
    (rest : list CustomResourceDefinition) (crCounts : gmap string nat)
    (w : World) :
  let version := storageVersion "" (specVersions (crdSpec crd)) in
  let r := resourceMapper e (GroupKindOf crd) version in
  let w1 := record_call (CallRESTMapping (GroupKindOf crd) version r) w in
  exportTypes h e tmpDir (crd :: rest) crCounts w =
  match r with
  | Err err =>
      (Some (Err (Wrapf (Wrapf err "cannot get REST mapping for %q"
                               (GetName crd))
                        "cannot get GVR for %q" (GetName crd))),
       w1)
  | Ok rm =>
      match ExportResources h e tmpDir (typeMetaOf crd) (rmResource rm) w1
      with
      | (Some (Ok count), w') =>
          exportTypes h e tmpDir rest
            (<[GroupResourceString (GetGroupResource (rmResource rm))
               := count]> crCounts) w'
      | (Some (Err err), w') =>
          (Some (Err (Wrapf err "cannot export resources for %q"
                            (GetName crd))), w')
      | (None, w') => (None, w')
      end
  end.
Proof.
  cbv zeta. simpl. unfold bind at 1, wrapf at 1.
  rewrite customResourceGVR_run. cbv zeta.
  destruct (resourceMapper e (GroupKindOf crd) _) as [rm | err];
    [| reflexivity].
  unfold bind, wrapf.
  destruct (ExportResources h e tmpDir _ _ _) as [[[count | err] |] w'];
    reflexivity.
Qed.

(** The calls of the export loop: a mapping request and an export per type,
    in list order, until one of them fails. Files outside the staging
    roots are left alone, and the loop always returns. *)
Lemma exportTypes_spec (h : Host) (e : ControlPlaneStateExporter)
    (tmpDir : string) (exportList : list CustomResourceDefinition) :
  ∀ (crCounts : gmap string nat) (w : World),
  ∃ r s cs,
    exportTypes h e tmpDir exportList crCounts w
    = (Some r, {| staging := s; files := files w; calls := calls w ++ cs |})
    ∧ Forall (λ c, stageOf c = StageExport) cs
    ∧ (∀ meta gvr res, In (CallExportResources meta gvr res) cs →
         ∃ crd, In crd exportList ∧ meta = typeMetaOf crd
                ∧ coordinateOf e crd = Some gvr)
    ∧ (∀ counts, r = Ok counts →
         Forall2 (exportedBy e) exportList (List.filter isExportResources cs))
    ∧ (∀ crd, In crd exportList → coordinateOf e crd = None →
         isErr r = true).
Proof.
  induction exportList as [|crd rest IH]; intros crCounts w.
  - exists (Ok crCounts), (staging w), []. simpl. unfold ret.
    rewrite app_nil_r. destruct w. simpl.
    repeat split; try constructor; try contradiction.
  - rewrite exportTypes_cons. cbv zeta.
    set (version := storageVersion "" (specVersions (crdSpec crd))).
    assert (Hcoord : ∀ rm, resourceMapper e (GroupKindOf crd) version = Ok rm
                           → coordinateOf e crd = Some (rmResource rm)).
    { intros rm Hrm. unfold coordinateOf. fold version. now rewrite Hrm. }
    destruct (resourceMapper e (GroupKindOf crd) version) as [rm | err]
      eqn:Hrm.
    + specialize (Hcoord rm eq_refl).
      set (w1 := record_call _ w).
      destruct (ExportResources_spec h e tmpDir (typeMetaOf crd)
                  (rmResource rm) w1) as (r1 & t' & Hrun & _).
      rewrite Hrun. clear Hrun.
      set (ev := CallExportResources (typeMetaOf crd) (rmResource rm) r1).
      destruct r1 as [count | err].
      * destruct (IH (<[GroupResourceString
                          (GetGroupResource (rmResource rm)) := count]>
                        crCounts)
                     (record_call ev (withStaging (insert tmpDir t') w1)))
          as (r & s & cs & Hrun & Hstage & Hmeta & Hall & Hnone).
        exists r, s, (CallRESTMapping (GroupKindOf crd) version (Ok rm)
                      :: ev :: cs).
        rewrite Hrun. simpl. rewrite <- ?app_assoc. simpl.
        split; [reflexivity |]. split; [| split; [| split]].
        -- repeat constructor. exact Hstage.
        -- intros meta gvr res [Hin | [Hin | Hin]]; [discriminate | |].
           ++ injection Hin as <- <- _. exists crd. auto.
           ++ destruct (Hmeta _ _ _ Hin) as (c & Hc & Hm & Hg).
              exists c. auto.
        -- intros counts Hr. constructor; [| eauto].
           exists (rmResource rm), count. auto.
        -- intros c [<- | Hc] Hn; [congruence | eauto].
      * exists (Err (Wrapf err "cannot export resources for %q"
                           (GetName crd))),
          (<[tmpDir := t']> (staging w)),
          [CallRESTMapping (GroupKindOf crd) version (Ok rm); ev].
        unfold record_call, withStaging, w1. simpl.
        rewrite <- !app_assoc. simpl.
        split; [reflexivity |]. split; [| split; [| split]].
        -- repeat constructor.
        -- intros meta gvr res [Hin | [Hin | []]]; [discriminate |].
           injection Hin as <- <- _. exists crd. auto.
        -- discriminate.
        -- reflexivity.
    + exists (Err (Wrapf (Wrapf err "cannot get REST mapping for %q"
                                (GetName crd))
                         "cannot get GVR for %q" (GetName crd))),
        (staging w), [CallRESTMapping (GroupKindOf crd) version (Err err)].
      split; [reflexivity |]. split; [| split; [| split]].
      * repeat constructor.
      * intros meta gvr res [Hin | []]. discriminate.
      * discriminate.
      * reflexivity.
Qed.

(** *** The orchestrator, stage by stage *)

Lemma Export_run (pageSize : Z) (h : Host) (e : ControlPlaneStateExporter)
    (fuel : nat) (w : World) :
  Export pageSize h e fuel w =
  match osTempDir h "" "up" with
  | Err err =>
      (Some (Err (Wrap err "cannot create temporary directory")),
       record_call (CallTempDir "" "up" (Err err)) w)
  | Ok tmpDir =>
      let cleanup w := snd (RemoveAll tmpDir w) in
      match fetchAllCRDs pageSize e fuel
              (record_call (CallTempDir "" "up" (Ok tmpDir))
                           (withStaging (insert tmpDir emptyTree) w)) with
      | (None, w2) => (None, w2)
      | (Some (Err err), w2) =>
          (Some (Err (Wrap err "cannot fetch CRDs")), cleanup w2)
      | (Some (Ok crdList), w2) =>
          match exportTypes h e tmpDir (List.filter shouldExport crdList) ∅ w2
          with
          | (None, w3) => (None, w3)
          | (Some (Err err), w3) => (Some (Err err), cleanup w3)
          | (Some (Ok crCounts), w3) =>
              match ExportMetadata h tmpDir (options e) crCounts w3 with
              | (None, w4) => (None, w4)
              | (Some (Err err), w4) =>
                  (Some (Err (Wrap err "cannot write export metadata")),
                   cleanup w4)
              | (Some (Ok _), w4) =>
                  match archive h e tmpDir w4 with
                  | (None, w5) => (None, w5)
                  | (Some (Err err), w5) =>
                      (Some (Err (Wrap err "cannot archive exported state")),
                       cleanup w5)
                  | (Some (Ok u), w5) => (Some (Ok u), cleanup w5)
                  end
              end
          end
      end
  end.
Proof.
  unfold Export. unfold bind at 1, wrap at 1. rewrite TempDir_run.
  destruct (osTempDir h "" "up") as [tmpDir | err]; [| reflexivity].
  cbv zeta. unfold defer, bind at 1, wrap at 1.
  destruct (fetchAllCRDs pageSize e fuel _) as [[[crdList | err] |] w2];
    try reflexivity.
  unfold bind at 1.
  destruct (exportTypes h e tmpDir _ _ _) as [[[crCounts | err] |] w3];
    try reflexivity.
  unfold bind at 1, wrap at 1.
  destruct (ExportMetadata h tmpDir _ _ _) as [[[u | err] |] w4];
    try reflexivity.
  unfold wrap.
  destruct (archive h e tmpDir w4) as [[[u' | err] |] w5]; reflexivity.
Qed.

(** Case analysis of a run of [Export] along its exit paths: the staging
    root cannot be made; discovery is cut off, fails or lists [crds]; the
    export loop fails or ends with [counts]; the summary cannot be written;
    [archive] runs. *)
Ltac export_paths pageSize h e fuel w :=
  let tmpDir := fresh "tmpDir" in
  let rf := fresh "rf" in
  let csF := fresh "csF" in
  let rE := fresh "rE" in
  let sE := fresh "sE" in
  let csE := fresh "csE" in
  rewrite !(Export_run pageSize h e fuel w);
  destruct (osTempDir h "" "up") as [tmpDir | ?err] eqn:Htmp;
  [ cbv zeta;
    destruct (fetchLoop_frame pageSize e fuel [] "")
      as (rf & csF & HcsF & HrunF);
    unfold fetchAllCRDs in *; rewrite !HrunF in *;
    destruct rf as [[crds | ?err] |];
    [ destruct (exportTypes_spec h e tmpDir (List.filter shouldExport crds) ∅
                  (record_calls csF
                     (record_call (CallTempDir "" "up" (Ok tmpDir))
                        (withStaging (insert tmpDir emptyTree) w))))
        as (rE & sE & csE & HrunE & HcsE & HmetaE & HallE & HnoneE);
      rewrite !HrunE;
      destruct rE as [counts | ?err];
      [ rewrite !ExportMetadata_run;
        destruct (osWriteMetadata h) as [?err |] eqn:Hmeta;
        [ | rewrite !archive_run; cbv zeta ]
      | ]
    | | ]
  | ].

(** Case analysis on the innermost [match] of the goal. *)
Ltac case_inner :=
  match goal with
  | |- context [match ?x with _ => _ end] =>
      lazymatch x with
      | context [match _ with _ => _ end] => fail
      | _ => destruct x eqn:?
      end
  end.

(** ** Cleanup *)



(** ** The output archive *)


(** C6, as amended. When [Export] returns success the output path holds the
    complete archive of the staging tree under mode 0600, and no other file
    of the host has changed. When it returns an error, the files of the
    host are as they were before the call, unless [Chmod] or the archive
    write failed after [Create] had worked: then the file [Create] made
    (empty) or the partial archive stays at the output path; nothing
    removes it. A failing [Create] leaves the files as they were. *)
Theorem Export_output_file (pageSize : Z) (h : Host)
    (e : ControlPlaneStateExporter) (fuel : nat) (w : World) :
  let out := OutputArchive (options e) in
  let run := Export pageSize h e fuel w in
  (fst run = Some (Ok tt) →
   ∃ t, files (snd run)
        = <[out := {| fileMode := ownerOnly; fileData := Packed t |}]>
            (files w))
  ∧ (∀ err, fst run = Some (Err err) →
       files (snd run) = files w
       ∨ (osChmod h out ownerOnly ≠ None
          ∧ files (snd run)
            = <[out := createNode h (files w !! out)]> (files w))
       ∨ (libArchive h out ≠ None
          ∧ files (snd run)
            = <[out := {| fileMode := ownerOnly; fileData := PartialData |}]>
                (files w)))
  ∧ (osCreate h out ≠ None → files (snd run) = files w)
  ∧ (fst run = None → files (snd run) = files w).
Proof.
  cbv zeta. export_paths pageSize h e fuel w.
  all: repeat case_inner; simpl.
  all: repeat split; intros; try discriminate; try congruence; eauto.
  all: try (right; left; split; [congruence | reflexivity]).
  all: try (right; right; split; [congruence | reflexivity]).
Qed.

(** C6, counterexample. On a host where the archive write fails, [Export]
    returns an error and a partial archive is left at the output path. *)
Lemma Export_leaves_partial_archive :
  let run := Export 500 (withFaults None None (Some (ErrOf "disk full")) None)
               (plane twoPages true) 2 emptyWorld in
  fst run = Some (Err (Wrap (ErrOf "disk full")
                            "cannot archive exported state"))
  ∧ files (snd run) !! "sos.tar.gz"
    = Some {| fileMode := ownerOnly; fileData := PartialData |}.
Proof. vm_compute. split; reflexivity. Qed.

(** ** The summary *)

Lemma filter_export_discovery (cs : list Call) :
  Forall (λ c, stageOf c = StageDiscovery) cs →
  List.filter isExportResources cs = [].
Proof.
  induction 1 as [|c cs Hc _ IH]; [reflexivity |].
  simpl. rewrite IH. destruct c; try discriminate; reflexivity.
Qed.

Lemma Forall_stage_weaken (P : Stage → Prop) (s : Stage) (cs : list Call) :
  P s → Forall (λ c, stageOf c = s) cs → Forall (λ c, P (stageOf c)) cs.
Proof.
  intros Hs H. eapply Forall_impl; [exact H |].
  intros c Hc. simpl in Hc. now rewrite Hc.
Qed.

(** C7. In every run of [Export] the summary is written at most once. If
    it is not written the run did not succeed and the archiver was not
    called. If it is written, every call before it belongs to setup,
    discovery or the export loop, and among them is one successful export
    per in-scope type, in list order; every call after it belongs to the
    archiver or the cleanup; and if writing it failed, [Export] returns that
    error, wrapped, only the cleanup follows and no file of the host has
    changed. *)
Theorem Export_summary_once (pageSize : Z) (h : Host)
    (e : ControlPlaneStateExporter) (fuel : nat) (w : World) :
  let run := Export pageSize h e fuel w in
  ∃ cs, calls (snd run) = calls w ++ cs
    ∧ ((Forall (λ c, stageOf c ≠ StageSummarize ∧ stageOf c ≠ StageArchive) cs
        ∧ fst run ≠ Some (Ok tt))
       ∨ ∃ crds pre counts r post,
           cs = pre ++ CallExportMetadata counts r :: post
           ∧ fst (fetchAllCRDs pageSize e fuel w) = Some (Ok crds)
           ∧ Forall (λ c, stageOf c = StageSetup
                          ∨ stageOf c = StageDiscovery
                          ∨ stageOf c = StageExport) pre
           ∧ Forall2 (exportedBy e) (List.filter shouldExport crds)
                     (List.filter isExportResources pre)
           ∧ Forall (λ c, stageOf c = StageArchive
                          ∨ stageOf c = StageCleanup) post
           ∧ ∀ err, r = Err err →
               fst run = Some (Err (Wrap err "cannot write export metadata"))
               ∧ Forall (λ c, stageOf c = StageCleanup) post
               ∧ files (snd run) = files w).
Proof.
  cbv zeta. export_paths pageSize h e fuel w.
  1, 2: assert (Hpre : Forall (λ c, stageOf c = StageSetup
                                    ∨ stageOf c = StageDiscovery
                                    ∨ stageOf c = StageExport)
                         (CallTempDir "" "up" (Ok tmpDir) :: csF ++ csE))
    by (constructor; [left; reflexivity |]; apply Forall_app; split;
        [apply (Forall_stage_weaken
                  (λ s, s = StageSetup ∨ s = StageDiscovery ∨ s = StageExport)
                  StageDiscovery); auto
        | apply (Forall_stage_weaken
                   (λ s, s = StageSetup ∨ s = StageDiscovery ∨ s = StageExport)
                   StageExport); auto]).
  1, 2: assert (Hall : Forall2 (exportedBy e) (List.filter shouldExport crds)
                         (List.filter isExportResources
                            (CallTempDir "" "up" (Ok tmpDir) :: csF ++ csE)))
    by (simpl; rewrite List.filter_app, (filter_export_discovery _ HcsF);
        eauto).
  - (* the summary cannot be written *)
    eexists. split; [simpl; rewrite <- !app_assoc; reflexivity |].
    right. exists crds, (CallTempDir "" "up" (Ok tmpDir) :: csF ++ csE),
      counts, (Err err), [CallRemoveAll tmpDir].
    simpl. rewrite <- !app_assoc.
    repeat split; auto; try (repeat constructor; fail).
    congruence.
  - (* the archiver runs *)
    repeat case_inner; simpl.
    all: eexists; (split; [rewrite <- !app_assoc; simpl; reflexivity |]).
    all: right; exists crds, (CallTempDir "" "up" (Ok tmpDir) :: csF ++ csE),
      counts, (Ok tt).
    all: eexists; simpl; rewrite <- !app_assoc.
    all: (split; [reflexivity |]).
    all: repeat split; auto; try discriminate.
    all: repeat (constructor;
                 [first [left; reflexivity | right; reflexivity] |]).
    all: constructor.
  - (* the export loop fails *)
    eexists. split; [simpl; rewrite <- !app_assoc; reflexivity |].
    left. split; [| discriminate].
    constructor; [split; discriminate |].
    apply Forall_app. split; [| apply Forall_app; split].
    + eapply Forall_impl; [exact HcsF |]. intros c Hc. simpl in Hc.
      rewrite Hc. split; discriminate.
    + eapply Forall_impl; [exact HcsE |]. intros c Hc. simpl in Hc.
      rewrite Hc. split; discriminate.
    + repeat constructor; discriminate.
  - (* discovery fails *)
    eexists. split; [simpl; rewrite <- !app_assoc; reflexivity |].
    left. split; [| discriminate].
    constructor; [split; discriminate |].
    apply Forall_app. split.
    + eapply Forall_impl; [exact HcsF |]. intros c Hc. simpl in Hc.
      rewrite Hc. split; discriminate.
    + repeat constructor; discriminate.
  - (* discovery is cut off *)
    eexists. split; [simpl; rewrite <- !app_assoc; reflexivity |].
    left. split; [| discriminate].
    constructor; [split; discriminate |].
    eapply Forall_impl; [exact HcsF |]. intros c Hc. simpl in Hc.
    rewrite Hc. split; discriminate.
  - (* no staging root *)
    exists [CallTempDir "" "up" (Err err)]. split; [reflexivity |].
    left. split; [| discriminate]. repeat constructor; discriminate.
Qed.

(** ** The type descriptor *)

Lemma hasStatusSubresource_spec
    (versions : list CustomResourceDefinitionVersion) :
  hasStatusSubresource versions = true
  ↔ ∃ vr, In vr versions ∧ vrStorage vr = true ∧ declaresStatus vr.
Proof.
  induction versions as [|vr rest IH]; simpl.
  - split; [discriminate | intros (? & [] & _)].
  - assert (Hhead : (vrStorage vr
                     && match vrSubresources vr with
                        | Some subresources =>
                            match subStatus subresources with
                            | Some _ => true
                            | None => false
                            end
                        | None => false
                        end) = true
                    ↔ vrStorage vr = true ∧ declaresStatus vr).
    { unfold declaresStatus. rewrite andb_true_iff.
      destruct (vrSubresources vr) as [sub |].
      - destruct (subStatus sub) as [u |] eqn:Hs.
        + split; [| tauto]. intros [Hst _]. split; [exact Hst |].
          exists sub. rewrite Hs. split; [reflexivity | discriminate].
        + split; [intros [_ [=]] |].
          intros [_ (sub' & [= <-] & Hne)]. congruence.
      - split; [intros [_ [=]] | intros [_ (? & [=] & _)]]. }
    destruct (_ && _).
    + split; [| reflexivity]. intros _. exists vr.
      split; [now left | now apply Hhead].
    + rewrite IH. split.
      * intros (x & Hin & Hx). exists x. split; [now right | exact Hx].
      * intros (x & [<- | Hin] & Hx); [| eauto].
        destruct Hhead as [_ Hhead]. now specialize (Hhead Hx).
Qed.

Lemma In_export_call (c x : Call) (csF csE post : list Call) :
  In c (x :: csF ++ csE ++ post) →
  isExportResources c = true →
  isExportResources x = false →
  Forall (λ c, stageOf c = StageDiscovery) csF →
  Forall (λ c, isExportResources c = false) post →
  In c csE.
Proof.
  intros Hin Hc Hx HF Hpost.
  destruct Hin as [<- | Hin]; [congruence |].
  rewrite !in_app_iff in Hin. destruct Hin as [Hin | [Hin | Hin]].
  - rewrite List.Forall_forall in HF. apply HF in Hin.
    destruct c; discriminate.
  - exact Hin.
  - rewrite List.Forall_forall in Hpost. apply Hpost in Hin. congruence.
Qed.


(** ** Counts *)

Lemma treeAt_lookup (w : World) (root : string) (t : StagingTree) :
  staging w !! root = Some t → treeAt w root = t.
Proof. intros H. unfold treeAt. now rewrite H. Qed.

Lemma countKey_resolved (e : ControlPlaneStateExporter)
    (crd : CustomResourceDefinition) (rm : RESTMapping) :
  resourceMapper e (GroupKindOf crd)
    (storageVersion "" (specVersions (crdSpec crd))) = Ok rm →
  countKey e crd
  = Some (GroupResourceString (GetGroupResource (rmResource rm))).
Proof. intros H. unfold countKey, coordinateOf. now rewrite H. Qed.

(** As long as the types resolve to keys that differ from each other and
    from the keys counted so far, the counts of the loop are the numbers of
    instance files of the subtrees. *)
Lemma exportTypes_counts (h : Host) (e : ControlPlaneStateExporter)
    (tmpDir : string) (exportList : list CustomResourceDefinition) :
  ∀ (crCounts : gmap string nat) (w : World) (t : StagingTree),
    staging w !! tmpDir = Some t →
    fileCounts t = crCounts →
    NoDup (omap (countKey e) exportList) →
    (∀ k, k ∈ omap (countKey e) exportList → crCounts !! k = None) →
    ∀ counts w',
      exportTypes h e tmpDir exportList crCounts w = (Some (Ok counts), w') →
      ∃ t', staging w' !! tmpDir = Some t'
            ∧ fileCounts t' = counts
            ∧ treeSummary t' = treeSummary t
            ∧ (∀ k, is_Some (crCounts !! k) → is_Some (counts !! k))
            ∧ (∀ crd key, In crd exportList → countKey e crd = Some key →
                 is_Some (counts !! key)).
Proof.
  induction exportList as [|crd rest IH];
    intros crCounts w t Ht Hcounts Hdup Hfresh counts w' Hrun.
  - simpl in Hrun. injection Hrun as <- <-. exists t.
    repeat split; auto. intros ? ? [].
  - rewrite exportTypes_cons in Hrun. cbv zeta in Hrun.
    destruct (resourceMapper e (GroupKindOf crd) _) as [rm | err] eqn:Hrm;
      [| discriminate].
    pose proof (countKey_resolved e crd rm Hrm) as Hkey.
    set (key := GroupResourceString (GetGroupResource (rmResource rm))) in *.
    simpl in Hdup, Hfresh. rewrite Hkey in Hdup, Hfresh.
    apply NoDup_cons in Hdup as [Hnotin Hdup].
    set (w1 := record_call _ w) in Hrun.
    destruct (ExportResources_spec h e tmpDir (typeMetaOf crd)
                (rmResource rm) w1)
      as (r1 & t1 & Hexp & [Hsum Hother] & Hdir & Hsize).
    fold key in Hother, Hdir, Hsize.
    rewrite (treeAt_lookup w1 tmpDir t Ht) in Hsum, Hother, Hsize.
    rewrite Hexp in Hrun. destruct r1 as [n | err]; [| discriminate].
    specialize (Hsize n eq_refl).
    assert (Hfree : crCounts !! key = None)
      by (apply Hfresh; left).
    assert (Hempty : typeDirOf t key = emptyDir).
    { unfold typeDirOf. rewrite <- Hcounts in Hfree. unfold fileCounts in Hfree.
      rewrite lookup_fmap in Hfree.
      destruct (treeTypes t !! key); [discriminate | reflexivity]. }
    rewrite Hempty in Hsize. simpl in Hsize. rewrite map_size_empty in Hsize.
    assert (Hcounts1 : fileCounts t1 = <[key := n]> crCounts).
    { apply map_eq. intros k. unfold fileCounts. rewrite lookup_fmap.
      destruct (decide (k = key)) as [-> | Hne].
      - rewrite lookup_insert_eq. destruct Hdir as [dir Hdir].
        unfold typeDirOf in Hsize. rewrite Hdir in *. simpl in *.
        now rewrite Hsize.
      - rewrite lookup_insert_ne by auto. rewrite Hother by auto.
        rewrite <- Hcounts. unfold fileCounts. now rewrite lookup_fmap. }
    assert (Hfresh1 : ∀ k, k ∈ omap (countKey e) rest →
                           <[key := n]> crCounts !! k = None).
    { intros k Hk. rewrite lookup_insert_ne.
      - apply Hfresh. now right.
      - intros ->. contradiction. }
    assert (Ht1 : staging
                    (record_call
                       (CallExportResources (typeMetaOf crd) (rmResource rm)
                          (Ok n))
                       (withStaging (insert tmpDir t1) w1))
                  !! tmpDir = Some t1)
      by (simpl; apply lookup_insert_eq).
    destruct (IH _ _ t1 Ht1 Hcounts1 Hdup Hfresh1 counts w' Hrun)
      as (t' & Ht' & Hcounts' & Hsum' & Hmono & Hkeys).
    exists t'. split; [exact Ht' |]. split; [exact Hcounts' |].
    split; [congruence |]. split.
    + intros k Hk. apply Hmono.
      destruct (decide (k = key)) as [-> | Hne].
      * rewrite lookup_insert_eq. eauto.
      * now rewrite lookup_insert_ne.
    + intros c k [<- | Hin] Hk.
      * rewrite Hkey in Hk. injection Hk as <-. apply Hmono.
        rewrite lookup_insert_eq. eauto.
      * eauto.
Qed.

Lemma totalCount_fileCounts (t : StagingTree) :
  totalCount (fileCounts t) = instanceFiles t.
Proof.
  unfold totalCount, fileCounts, instanceFiles.
  now rewrite map_fold_fmap.
Qed.

(** C3, as amended. After a successful run the archive holds the staging
    tree with its summary. Provided the exported types resolve to pairwise
    different (group, resource) keys, the count recorded under the key of
    every exported type is the number of instance files in the subtree of
    that type, and the sum of the counts is the number of instance files in
    the tree. *)
Theorem Export_counts (pageSize : Z) (h : Host)
    (e : ControlPlaneStateExporter) (fuel : nat) (w : World) :
  let out := OutputArchive (options e) in
  let run := Export pageSize h e fuel w in
  fst run = Some (Ok tt) →
  ∃ crds t s,
    fst (fetchAllCRDs pageSize e fuel w) = Some (Ok crds)
    ∧ files (snd run) !! out
      = Some {| fileMode := ownerOnly; fileData := Packed t |}
    ∧ treeSummary t = Some s
    ∧ (NoDup (omap (countKey e) (List.filter shouldExport crds)) →
       (∀ crd, In crd crds → shouldExport crd = true →
          ∃ key, countKey e crd = Some key
                 ∧ summaryCounts s !! key
                   = Some (size (dirInstances (typeDirOf t key))))
       ∧ totalCount (summaryCounts s) = instanceFiles t).
Proof.
  cbv zeta. export_paths pageSize h e fuel w; try discriminate.
  repeat case_inner; try discriminate. simpl. intros _.
  match goal with
  | H : staging _ !! tmpDir = Some ?t |- _ => rename H into Ht; rename t into t4
  end.
  simpl in Ht. rewrite lookup_insert_eq in Ht. injection Ht as <-.
  exists crds. do 2 eexists. split; [reflexivity |].
  split; [apply lookup_insert_eq |]. split; [reflexivity |].
  intros Hdup. simpl.
  eapply (exportTypes_counts h e tmpDir _ ∅ _ emptyTree) in HrunE
    as (t' & Ht' & Hcounts & _ & _ & Hkeys);
    [ | simpl; apply lookup_insert_eq
      | unfold fileCounts; simpl; apply fmap_empty
      | exact Hdup
      | intros k _; apply lookup_empty ].
  simpl in Ht'. rewrite Ht'. simpl. split.
  - intros crd Hin Hscope.
    assert (Hin' : In crd (List.filter shouldExport crds))
      by (apply List.filter_In; auto).
    destruct (countKey e crd) as [key |] eqn:Hkey.
    + exists key. split; [reflexivity |].
      destruct (Hkeys crd key Hin' Hkey) as [n Hn].
      rewrite Hn. f_equal.
      rewrite <- Hcounts in Hn. unfold fileCounts in Hn.
      rewrite lookup_fmap in Hn. unfold typeDirOf. simpl.
      destruct (treeTypes t' !! key); [| discriminate].
      simpl in *. congruence.
    + unfold countKey in Hkey.
      destruct (coordinateOf e crd) eqn:Hcoord; [discriminate |].
      specialize (HnoneE crd Hin' Hcoord). discriminate.
  - rewrite <- Hcounts. apply (totalCount_fileCounts t').
Qed.

(** A successful run on the small control plane, whose types have
    different keys. *)
Lemma Export_counts_witness :
  NoDup (omap (countKey (plane twoPages true))
              (List.filter shouldExport (allItems twoPagesServed)))
  ∧ ∃ crds t s,
      fst (fetchAllCRDs 500 (plane twoPages true) 2 emptyWorld)
      = Some (Ok crds)
      ∧ files (snd (Export 500 goodHost (plane twoPages true) 2 emptyWorld))
          !! "sos.tar.gz"
        = Some {| fileMode := ownerOnly; fileData := Packed t |}
      ∧ treeSummary t = Some s
      ∧ (NoDup (omap (countKey (plane twoPages true))
                     (List.filter shouldExport crds)) →
         (∀ crd, In crd crds → shouldExport crd = true →
            ∃ key, countKey (plane twoPages true) crd = Some key
                   ∧ summaryCounts s !! key
                     = Some (size (dirInstances (typeDirOf t key))))
         ∧ totalCount (summaryCounts s) = instanceFiles t).
Proof.
  split.
  - apply (bool_decide_unpack _). vm_compute. exact I.
  - apply (Export_counts 500 goodHost (plane twoPages true) 2 emptyWorld).
    vm_compute. reflexivity.
Defined.

(** C3, counterexample. Two listed types resolve to the same (group,
    resource) key while the instances listed for them differ: the run
    succeeds, two instance files lie in the subtree of that key, and the
    summary records one, the count of the second type. *)
Lemma Export_counts_shared_key :
  let run := Export 500 goodHost clashingPlane 1 emptyWorld in
  countKey clashingPlane crdFoos = Some "foos.acme.crossplane.io"
  ∧ countKey clashingPlane crdBars = Some "foos.acme.crossplane.io"
  ∧ fst run = Some (Ok tt)
  ∧ ∃ t s,
      files (snd run) !! "sos.tar.gz"
      = Some {| fileMode := ownerOnly; fileData := Packed t |}
      ∧ treeSummary t = Some s
      ∧ summaryCounts s !! "foos.acme.crossplane.io" = Some 1
      ∧ size (dirInstances (typeDirOf t "foos.acme.crossplane.io")) = 2
      ∧ totalCount (summaryCounts s) = 1
      ∧ instanceFiles t = 2.
Proof.
  cbv zeta. repeat (split; [reflexivity |]).
  set (run := Export 500 goodHost clashingPlane 1 emptyWorld).
  destruct (files (snd run) !! "sos.tar.gz") as [[mode [| | t]] |] eqn:Hfile;
    try (vm_compute in Hfile; discriminate).
  destruct (treeSummary t) as [s |] eqn:Hs.
  2: { vm_compute in Hfile. injection Hfile as _ <-. discriminate. }
  exists t, s.
  assert (mode = ownerOnly) as ->
    by (vm_compute in Hfile; now injection Hfile as <- _).
  split; [reflexivity |]. split; [exact Hs |].
  vm_compute in Hfile. injection Hfile as <-.
  vm_compute in Hs. injection Hs as <-.
  vm_compute. repeat split; reflexivity.
Qed.

(** ** Types without a storage version *)

(** C4, as amended. For an in-scope type among those listed that has no
    version flagged as storage, [customResourceGVR] asks the mapper for the
    empty version. When the mapper refuses that request, the locator
    returns the refusal wrapped with the name of the type, the export loop
    stops at the type with that error wrapped once more with the name, and
    [Export] returns an error and leaves the files of the host untouched:
    no archive is produced. *)
Theorem Export_unresolved_type (pageSize : Z) (h : Host)
    (e : ControlPlaneStateExporter) (fuel : nat) (w : World)
    (crdList : list CustomResourceDefinition)
    (crd : CustomResourceDefinition) (refusal : error) :
  fst (fetchAllCRDs pageSize e fuel w) = Some (Ok crdList) →
  In crd crdList →
  shouldExport crd = true →
  storageNames (specVersions (crdSpec crd)) = [] →
  resourceMapper e (GroupKindOf crd) "" = Err refusal →
  let run := Export pageSize h e fuel w in
  (∀ w', customResourceGVR e crd w'
         = (Some (Err (Wrapf refusal "cannot get REST mapping for %q"
                             (GetName crd))),
            record_call (CallRESTMapping (GroupKindOf crd) "" (Err refusal))
                        w'))
  ∧ (∀ tmpDir rest crCounts w',
       fst (exportTypes h e tmpDir (crd :: rest) crCounts w')
       = Some (Err (Wrapf (Wrapf refusal "cannot get REST mapping for %q"
                                 (GetName crd))
                          "cannot get GVR for %q" (GetName crd))))
  ∧ (∃ err, fst run = Some (Err err))
  ∧ files (snd run) = files w.
Proof.
  intros Hfetch Hin Hscope Hnone Hrefuse.
  assert (Hversion : storageVersion "" (specVersions (crdSpec crd)) = "")
    by (rewrite storageVersion_last, Hnone; reflexivity).
  assert (Hcoord : coordinateOf e crd = None)
    by (unfold coordinateOf; now rewrite Hversion, Hrefuse).
  cbv zeta. split; [| split].
  - intros w'. rewrite customResourceGVR_run. cbv zeta.
    now rewrite Hversion, Hrefuse.
  - intros tmpDir rest crCounts w'. rewrite exportTypes_cons. cbv zeta.
    now rewrite Hversion, Hrefuse.
  - assert (Hin' : In crd (List.filter shouldExport crdList))
      by (apply List.filter_In; auto).
    export_paths pageSize h e fuel w; simpl in Hfetch; try discriminate.
    1, 2: injection Hfetch as ->; now specialize (HnoneE crd Hin' Hcoord).
    all: split; eauto.
Qed.

(** A run that lists a lock type without storage version, under a mapper
    that refuses the empty version. *)
Lemma Export_unresolved_type_witness :
  (∃ err, fst (Export 500 goodHost
                 (plane [[crdCompositions; crdLocks]; [crdBuckets]] true)
                 2 emptyWorld) = Some (Err err))
  ∧ files (snd (Export 500 goodHost
                  (plane [[crdCompositions; crdLocks]; [crdBuckets]] true)
                  2 emptyWorld)) = files emptyWorld.
Proof.
  apply (Export_unresolved_type 500 goodHost
           (plane [[crdCompositions; crdLocks]; [crdBuckets]] true)
           2 emptyWorld [crdCompositions; crdLocks; crdBuckets] crdLocks
           (ErrOf "no matches for kind")).
  - vm_compute. reflexivity.
  - simpl. auto.
  - reflexivity.
  - reflexivity.
  - reflexivity.
Defined.

(** C4, counterexample. A listed type without a storage version does not
    stop the run when it is out of scope, nor when it is in scope and the
    mapper resolves the empty version: both runs succeed and produce the
    archive. *)
Lemma Export_zero_storage_succeeds :
  let outOfScope := plane [[crdCompositions; crdGadgets]; [crdBuckets]] true in
  let lenient := plane [[crdCompositions; crdLocks]; [crdBuckets]] false in
  storageNames (specVersions (crdSpec crdGadgets)) = []
  ∧ shouldExport crdGadgets = false
  ∧ fst (Export 500 goodHost outOfScope 2 emptyWorld) = Some (Ok tt)
  ∧ is_Some (files (snd (Export 500 goodHost outOfScope 2 emptyWorld))
               !! "sos.tar.gz")
  ∧ storageNames (specVersions (crdSpec crdLocks)) = []
  ∧ shouldExport crdLocks = true
  ∧ fst (Export 500 goodHost lenient 2 emptyWorld) = Some (Ok tt)
  ∧ is_Some (files (snd (Export 500 goodHost lenient 2 emptyWorld))
               !! "sos.tar.gz").
Proof.
  cbv zeta. repeat split; try reflexivity.
  - vm_compute. eauto.
  - vm_compute. eauto.
Qed.

(** * Further properties of the exporter *)

(** ** Discovery that fails or does not end *)

Lemma nextToken_cons (token : string) (page : CustomResourceDefinitionList)
    (rest : list CustomResourceDefinitionList) :
  nextToken token (page :: rest) = nextToken (listContinue page) rest.
Proof. unfold nextToken. simpl map. apply last_cons_default. Qed.

Lemma fetchLoop_broken (pageSize : Z) (e : ControlPlaneStateExporter)
    (token : string) (pages : list CustomResourceDefinitionList)
    (err : error) :
  brokenListing pageSize (crdClient e) token pages err →
  ∀ fuel crds w, length pages < fuel →
    fetchLoop pageSize e fuel crds token w
    = (Some (Err (Wrap err "cannot list CRDs")),
       record_calls
         (listCalls pageSize token pages
          ++ [CallListCRDs {| optLimit := pageSize;
                              optContinue := nextToken token pages |}
                (Err err)])
         w).
Proof.
  induction 1 as [token err Hfail | token page rest err Hpage Hmore _ IH];
    intros fuel crds w Hfuel;
    (destruct fuel as [|fuel]; [simpl in Hfuel; lia |]);
    rewrite fetchLoop_step; cbv zeta.
  - rewrite Hfail. reflexivity.
  - rewrite Hpage. apply String.eqb_neq in Hmore. rewrite Hmore.
    rewrite IH by (simpl in Hfuel; lia).
    rewrite record_call_calls, record_calls_app, nextToken_cons.
    reflexivity.
Qed.

(** X1. When the server answers some pages and then fails a list request,
    [fetchAllCRDs] returns that error wrapped with "cannot list CRDs" and
    none of the items of the pages it had fetched; it has made one request
    per page served and the failed one, and no other. *)
Theorem fetchAllCRDs_page_error (pageSize : Z) (e : ControlPlaneStateExporter)
    (pages : list CustomResourceDefinitionList) (err : error)
    (fuel : nat) (w : World) :
  brokenListing pageSize (crdClient e) "" pages err →
  length pages < fuel →
  fetchAllCRDs pageSize e fuel w
  = (Some (Err (Wrap err "cannot list CRDs")),
     record_calls
       (listCalls pageSize "" pages
        ++ [CallListCRDs {| optLimit := pageSize;
                            optContinue := nextToken "" pages |}
              (Err err)])
       w).
Proof. intros Hbroken Hfuel. now apply fetchLoop_broken. Qed.

(** The second page of two has expired. *)
Lemma fetchAllCRDs_page_error_witness :
  fetchAllCRDs 500 expiringPlane 5 emptyWorld
  = (Some (Err (Wrap (ErrOf "410 Gone") "cannot list CRDs")),
     record_calls
       (listCalls 500 "" (take 1 twoPagesServed)
        ++ [CallListCRDs {| optLimit := 500; optContinue := "1" |}
              (Err (ErrOf "410 Gone"))])
       emptyWorld).
Proof.
  apply (fetchAllCRDs_page_error 500 expiringPlane (take 1 twoPagesServed)
           (ErrOf "410 Gone") 5 emptyWorld).
  - apply broken_later; [reflexivity | discriminate |].
    apply broken_here. reflexivity.
  - simpl. lia.
Defined.

Lemma fetchLoop_endless (pageSize : Z) (e : ControlPlaneStateExporter) :
  (∀ opts, ∃ page, crdClient e opts = Ok page ∧ listContinue page ≠ "") →
  ∀ fuel crds token w,
    fst (fetchLoop pageSize e fuel crds token w) = None
    ∧ staging (snd (fetchLoop pageSize e fuel crds token w)) = staging w
    ∧ length (calls (snd (fetchLoop pageSize e fuel crds token w)))
      = length (calls w) + fuel.
Proof.
  intros Hmore. induction fuel as [|fuel IH]; intros crds token w.
  - simpl. auto.
  - rewrite fetchLoop_step. cbv zeta.
    destruct (Hmore {| optLimit := pageSize; optContinue := token |})
      as (page & -> & Htoken).
    apply String.eqb_neq in Htoken. rewrite Htoken.
    destruct (IH (crds ++ listItems page) (listContinue page)
                (record_call
                   (CallListCRDs {| optLimit := pageSize;
                                    optContinue := token |} (Ok page)) w))
      as (Hnone & Hstaging & Hcalls).
    rewrite Hnone, Hstaging, Hcalls. simpl. rewrite length_app. simpl.
    repeat split; lia.
Qed.

(** X2. The discovery loop has no bound of its own: against a server that
    answers every list request with a non-empty continuation token,
    [fetchAllCRDs] has not returned after any number of requests, and
    [Export] does not return either, so that the staging root it made is
    still there. *)
Theorem Export_endless_listing (pageSize : Z) (h : Host)
    (e : ControlPlaneStateExporter) (fuel : nat) (w : World)
    (tmpDir : string) :
  (∀ opts, ∃ page, crdClient e opts = Ok page ∧ listContinue page ≠ "") →
  osTempDir h "" "up" = Ok tmpDir →
  fst (fetchAllCRDs pageSize e fuel w) = None
  ∧ length (calls (snd (fetchAllCRDs pageSize e fuel w)))
    = length (calls w) + fuel
  ∧ fst (Export pageSize h e fuel w) = None
  ∧ staging (snd (Export pageSize h e fuel w)) !! tmpDir = Some emptyTree.
Proof.
  intros Hmore Hdir. unfold fetchAllCRDs.
  destruct (fetchLoop_endless pageSize e Hmore fuel [] "" w)
    as (Hnone & _ & Hcalls).
  split; [exact Hnone |]. split; [exact Hcalls |].
  rewrite Export_run, Hdir. cbv zeta. unfold fetchAllCRDs.
  set (w1 := record_call _ _).
  destruct (fetchLoop_endless pageSize e Hmore fuel [] "" w1)
    as (Hnone1 & Hstaging1 & _).
  destruct (fetchLoop pageSize e fuel [] "" w1) as [r w2].
  simpl in Hnone1, Hstaging1. subst r. simpl. split; [reflexivity |].
  rewrite Hstaging1. unfold w1. simpl. apply lookup_insert_eq.
Qed.

(** A server that always says there is more. *)
Lemma Export_endless_listing_witness :
  fst (Export 500 goodHost endlessPlane 7 emptyWorld) = None
  ∧ staging (snd (Export 500 goodHost endlessPlane 7 emptyWorld))
      !! "/tmp/up1" = Some emptyTree.
Proof.
  apply (Export_endless_listing 500 goodHost endlessPlane 7 emptyWorld
           "/tmp/up1").
  - intros opts. eexists. split; [reflexivity | discriminate].
  - reflexivity.
Defined.

(** ** The export loop, call by call *)

Lemma exportTypes_loopRun (h : Host) (e : ControlPlaneStateExporter)
    (tmpDir : string) (exportList : list CustomResourceDefinition) :
  ∀ (crCounts : gmap string nat) (w : World),
  ∃ r cs,
    fst (exportTypes h e tmpDir exportList crCounts w) = Some r
    ∧ calls (snd (exportTypes h e tmpDir exportList crCounts w))
      = calls w ++ cs
    ∧ loopRun e exportList crCounts cs r.
Proof.
  induction exportList as [|crd rest IH]; intros crCounts w.
  - exists (Ok crCounts), []. simpl. rewrite app_nil_r.
    repeat split. constructor.
  - rewrite exportTypes_cons. cbv zeta.
    destruct (resourceMapper e (GroupKindOf crd) _) as [rm | err] eqn:Hrm.
    + set (w1 := record_call _ w).
      destruct (ExportResources_spec h e tmpDir (typeMetaOf crd)
                  (rmResource rm) w1) as (r1 & t' & Hrun & _).
      rewrite Hrun. destruct r1 as [count | err].
      * destruct (IH (<[GroupResourceString
                          (GetGroupResource (rmResource rm)) := count]>
                        crCounts)
                     (record_call
                        (CallExportResources (typeMetaOf crd)
                           (rmResource rm) (Ok count))
                        (withStaging (insert tmpDir t') w1)))
          as (r & cs & Hr & Hcs & Hloop).
        exists r, (CallRESTMapping (GroupKindOf crd)
                     (storageVersion "" (specVersions (crdSpec crd))) (Ok rm)
                   :: CallExportResources (typeMetaOf crd) (rmResource rm)
                        (Ok count)
                   :: cs).
        split; [exact Hr |]. split.
        -- rewrite Hcs. unfold w1. simpl. rewrite <- !app_assoc. reflexivity.
        -- now apply loop_next.
      * eexists _, _. split; [reflexivity |]. split.
        -- unfold w1. simpl. rewrite <- !app_assoc. simpl. reflexivity.
        -- now apply loop_export_failed.
    + eexists _, _. split; [reflexivity |]. split; [reflexivity |].
      now apply loop_unresolved.
Qed.

Lemma exportTypes_loopRun_log (h : Host) (e : ControlPlaneStateExporter)
    (tmpDir : string) (exportList : list CustomResourceDefinition)
    (crCounts : gmap string nat) (w : World)
    (r : result (gmap string nat)) (s : gmap string StagingTree)
    (cs : list Call) :
  exportTypes h e tmpDir exportList crCounts w
  = (Some r, {| staging := s; files := files w; calls := calls w ++ cs |}) →
  loopRun e exportList crCounts cs r.
Proof.
  intros Hrun.
  destruct (exportTypes_loopRun h e tmpDir exportList crCounts w)
    as (r' & cs' & Hr & Hcs & Hloop).
  rewrite Hrun in Hr, Hcs. simpl in Hr, Hcs.
  injection Hr as <-. apply app_inv_head in Hcs as <-. exact Hloop.
Qed.

Lemma loopRun_mapping (e : ControlPlaneStateExporter)
    (l : list CustomResourceDefinition) (crCounts : gmap string nat)
    (cs : list Call) (r : result (gmap string nat)) :
  loopRun e l crCounts cs r →
  ∀ gk version res, In (CallRESTMapping gk version res) cs →
    ∃ crd, In crd l ∧ gk = GroupKindOf crd
           ∧ version = storageVersion "" (specVersions (crdSpec crd))
           ∧ res = resourceMapper e gk version.
Proof.
  induction 1 as [c | crd rest c err Hrm | crd rest c rm err Hrm
                 | crd rest c rm n cs r Hrm _ IH];
    intros gk version res Hin; simpl in Hin.
  - contradiction.
  - destruct Hin as [[= <- <- <-] | []]. exists crd. simpl. auto.
  - destruct Hin as [[= <- <- <-] | [[=] | []]]. exists crd. simpl. auto.
  - destruct Hin as [[= <- <- <-] | [[=] | Hin]].
    + exists crd. simpl. auto.
    + destruct (IH _ _ _ Hin) as (x & Hx & Hrest). exists x. simpl. auto.
Qed.

Lemma loopRun_counts (e : ControlPlaneStateExporter)
    (l : list CustomResourceDefinition) (crCounts : gmap string nat)
    (cs : list Call) (r : result (gmap string nat)) :
  loopRun e l crCounts cs r →
  ∀ counts, r = Ok counts → counts = replayCounts cs crCounts.
Proof.
  induction 1 as [c | crd rest c err Hrm | crd rest c rm err Hrm
                 | crd rest c rm n cs r Hrm _ IH];
    intros counts Hr; try discriminate.
  - now injection Hr as <-.
  - rewrite (IH _ Hr). reflexivity.
Qed.

Lemma loopRun_error (e : ControlPlaneStateExporter)
    (l : list CustomResourceDefinition) (crCounts : gmap string nat)
    (cs : list Call) (r : result (gmap string nat)) :
  loopRun e l crCounts cs r →
  ∀ err, r = Err err →
    ∃ crd cause,
      In crd l
      ∧ (err = Wrapf (Wrapf cause "cannot get REST mapping for %q"
                            (GetName crd))
                     "cannot get GVR for %q" (GetName crd)
         ∨ err = Wrapf cause "cannot export resources for %q" (GetName crd)).
Proof.
  induction 1 as [c | crd rest c err Hrm | crd rest c rm err Hrm
                 | crd rest c rm n cs r Hrm _ IH];
    intros err' Hr; try discriminate.
  - injection Hr as <-. exists crd, err. split; [now left | now left].
  - injection Hr as <-. exists crd, err. split; [now left | now right].
  - destruct (IH _ Hr) as (x & cause & Hx & Hform).
    exists x, cause. split; [now right | exact Hform].
Qed.

(** A call of the export stage in the log of a run lies in the part the
    export loop wrote. *)
Lemma In_export_stage (c x : Call) (csF csE post : list Call) :
  In c (x :: csF ++ csE ++ post) →
  stageOf c = StageExport →
  stageOf x ≠ StageExport →
  Forall (λ c, stageOf c = StageDiscovery) csF →
  Forall (λ c, stageOf c ≠ StageExport) post →
  In c csE.
Proof.
  intros Hin Hc Hx HF Hpost.
  destruct Hin as [<- | Hin]; [contradiction |].
  rewrite !in_app_iff in Hin. destruct Hin as [Hin | [Hin | Hin]].
  - rewrite List.Forall_forall in HF. apply HF in Hin. congruence.
  - exact Hin.
  - rewrite List.Forall_forall in Hpost. apply Hpost in Hin. contradiction.
Qed.

Lemma loopRun_requests (e : ControlPlaneStateExporter)
    (l : list CustomResourceDefinition) (crCounts : gmap string nat)
    (cs : list Call) (r : result (gmap string nat)) :
  loopRun e l crCounts cs r →
  ∃ n, List.filter isRESTMapping cs = map (mappingCallOf e) (take n l)
       ∧ ∀ counts, r = Ok counts → n = length l.
Proof.
  induction 1 as [c | crd rest c err Hrm | crd rest c rm err Hrm
                 | crd rest c rm n cs r Hrm _ IH].
  - exists 0. auto.
  - exists 1. simpl. unfold mappingCallOf. rewrite Hrm, ?take_0.
    split; [reflexivity | discriminate].
  - exists 1. simpl. unfold mappingCallOf. rewrite Hrm, ?take_0.
    split; [reflexivity | discriminate].
  - destruct IH as (k & Hk & Hlen). exists (S k). simpl.
    unfold mappingCallOf at 1. rewrite Hrm, Hk.
    split; [reflexivity |]. intros counts Hr. now rewrite (Hlen _ Hr).
Qed.

Lemma filter_mapping_other (cs : list Call) :
  Forall (λ c, stageOf c ≠ StageExport) cs →
  List.filter isRESTMapping cs = [].
Proof.
  induction 1 as [|c cs Hc _ IH]; [reflexivity |].
  simpl. rewrite IH. destruct c; try reflexivity. now contradiction Hc.
Qed.

Lemma Forall_stage_other (s s' : Stage) (cs : list Call) :
  s ≠ s' →
  Forall (λ c, stageOf c = s) cs → Forall (λ c, stageOf c ≠ s') cs.
Proof.
  intros Hne H. eapply Forall_impl; [exact H |].
  intros c Hc. simpl in Hc. now rewrite Hc.
Qed.



(** ** Errors *)

Lemma fetchLoop_error (pageSize : Z) (e : ControlPlaneStateExporter)
    (fuel : nat) :
  ∀ crds token w err,
    fst (fetchLoop pageSize e fuel crds token w) = Some (Err err) →
    ∃ cause, err = Wrap cause "cannot list CRDs".
Proof.
  induction fuel as [|fuel IH]; intros crds token w err; [discriminate |].
  rewrite fetchLoop_step. cbv zeta.
  destruct (crdClient e _) as [l | cause].
  - destruct (String.eqb (listContinue l) ""); [discriminate | apply IH].
  - intros [= <-]. eauto.
Qed.



(** ** Setup and cleanup in the call log *)

Ltac stage_list :=
  repeat first
    [ apply Forall_nil_2
    | apply Forall_cons_2; [split; discriminate |]
    | apply Forall_app_2 ];
  try (eapply Forall_impl; [eassumption |];
       let c := fresh "c" in let Hc := fresh "Hc" in
       intros c Hc; simpl in Hc; rewrite Hc; split; discriminate).

(** X6. The call that makes the staging root is the first call of a run
    and is made once. When it fails it is the only call. When it works and
    [Export] returns, with or without an error, removing that root is the
    last call and is made once; when the paging loop is cut off no removal
    has been made. *)
Theorem Export_setup_and_cleanup (pageSize : Z) (h : Host)
    (e : ControlPlaneStateExporter) (fuel : nat) (w : World) :
  let run := Export pageSize h e fuel w in
  ∃ cs, calls (snd run) = calls w ++ cs
    ∧ match osTempDir h "" "up" with
      | Err err => cs = [CallTempDir "" "up" (Err err)]
      | Ok tmpDir =>
          ∃ mid,
            Forall (λ c, stageOf c ≠ StageSetup ∧ stageOf c ≠ StageCleanup)
                   mid
            ∧ cs = CallTempDir "" "up" (Ok tmpDir) :: mid
                   ++ match fst run with
                      | Some _ => [CallRemoveAll tmpDir]
                      | None => []
                      end
      end.
Proof.
  cbv zeta. export_paths pageSize h e fuel w.
  2: repeat (case_inner; simpl).
  all: simpl; rewrite <- ?app_assoc; simpl.
  all: eexists; (split; [reflexivity |]); try reflexivity.
  all: first
    [ match goal with
      | HF : Forall (λ c, stageOf c = StageDiscovery) ?lF,
        HE : Forall (λ c, stageOf c = StageExport) ?lE
        |- context [?lE ++ ?L] => exists (lF ++ lE ++ removelast L)
      end
    | match goal with
      | HF : Forall (λ c, stageOf c = StageDiscovery) ?lF |- _ => exists lF
      end ].
  all: simpl; rewrite <- ?app_assoc, ?app_nil_r; simpl.
  all: split; [| reflexivity].
  all: stage_list.
Qed.

(** ** The counts handed to the summary *)

Lemma replayCounts_app (cs1 cs2 : list Call) (crCounts : gmap string nat) :
  replayCounts (cs1 ++ cs2) crCounts
  = replayCounts cs2 (replayCounts cs1 crCounts).
Proof. unfold replayCounts. apply fold_left_app. Qed.

Lemma replayCounts_other (cs : list Call) (crCounts : gmap string nat) :
  Forall (λ c, isExportResources c = false) cs →
  replayCounts cs crCounts = crCounts.
Proof.
  induction 1 as [|c cs Hc _ IH]; [reflexivity |].
  unfold replayCounts in *. simpl.
  destruct c; try discriminate; exact IH.
Qed.

Lemma In_summary_call (c x : Call) (csF csE post : list Call) :
  In c (x :: csF ++ csE ++ post) →
  stageOf c = StageSummarize →
  stageOf x ≠ StageSummarize →
  Forall (λ c, stageOf c = StageDiscovery) csF →
  Forall (λ c, stageOf c = StageExport) csE →
  In c post.
Proof.
  intros Hin Hc Hx HF HE.
  destruct Hin as [<- | Hin]; [contradiction |].
  rewrite !in_app_iff in Hin. destruct Hin as [Hin | [Hin | Hin]].
  - rewrite List.Forall_forall in HF. apply HF in Hin. congruence.
  - rewrite List.Forall_forall in HE. apply HE in Hin. congruence.
  - exact Hin.
Qed.

(** X9. The counts [Export] hands to the metadata exporter are the counts
    the exports of the run returned, each under the (group, resource) key
    of its coordinate; where two exports had the same key, the count of the
    later one. *)
Theorem Export_summary_counts (pageSize : Z) (h : Host)
    (e : ControlPlaneStateExporter) (fuel : nat) (w : World) :
  let run := Export pageSize h e fuel w in
  ∃ cs, calls (snd run) = calls w ++ cs
    ∧ ∀ counts r, In (CallExportMetadata counts r) cs →
        counts = replayCounts cs ∅.
Proof.
  cbv zeta. export_paths pageSize h e fuel w.
  2: repeat (case_inner; simpl).
  all: simpl; rewrite <- ?app_assoc; simpl.
  all: eexists; (split; [reflexivity |]); intros counts' r' Hin.
  all: try (apply (In_summary_call _ _ csF csE) in Hin;
            [ | reflexivity | discriminate | exact HcsF | exact HcsE ]).
  all: try (apply (In_summary_call _ _ csF []) in Hin;
            [ | reflexivity | discriminate | exact HcsF | constructor ]).
  all: simpl in Hin; repeat destruct Hin as [Hin | Hin];
    try discriminate; try contradiction.
  all: try (rewrite List.Forall_forall in HcsF; apply HcsF in Hin;
            discriminate).
  all: injection Hin as <- <-.
  all: change (CallTempDir "" "up" (Ok tmpDir) :: csF ++ csE ++ ?L)
         with ([CallTempDir "" "up" (Ok tmpDir)] ++ csF ++ csE ++ L).
  all: rewrite !replayCounts_app.
  all: rewrite (replayCounts_other csF)
         by (eapply Forall_impl; [exact HcsF |];
             intros c Hc; destruct c; try reflexivity; discriminate).
  all: simpl;
    rewrite <- (loopRun_counts _ _ _ _ _
                  (exportTypes_loopRun_log _ _ _ _ _ _ _ _ _ HrunE)
                  counts eq_refl).
  all: reflexivity.
Qed.

(** ** A listing with nothing in scope *)

(** X7. When none of the listed types passes the filter, [Export] makes no
    request to the mapper and exports nothing: after discovery it goes
    straight to the summary, with an empty map of counts, and on to the
    archive. If the run succeeds, the archive holds a tree without
    subtrees and a summary without counts. *)
Theorem Export_nothing_in_scope (pageSize : Z) (h : Host)
    (e : ControlPlaneStateExporter) (fuel : nat) (w : World)
    (crdList : list CustomResourceDefinition) (tmpDir : string) :
  let out := OutputArchive (options e) in
  let run := Export pageSize h e fuel w in
  osTempDir h "" "up" = Ok tmpDir →
  fst (fetchAllCRDs pageSize e fuel w) = Some (Ok crdList) →
  List.filter shouldExport crdList = [] →
  ∃ csF r post,
    calls (snd run)
    = calls w ++ CallTempDir "" "up" (Ok tmpDir)
                 :: csF ++ CallExportMetadata ∅ r :: post
    ∧ Forall (λ c, stageOf c = StageDiscovery) csF
    ∧ Forall (λ c, stageOf c = StageArchive ∨ stageOf c = StageCleanup) post
    ∧ (fst run = Some (Ok tt) →
       files (snd run) !! out
       = Some {| fileMode := ownerOnly;
                 fileData :=
                   Packed {| treeTypes := ∅;
                             treeSummary :=
                               Some {| summaryCounts := ∅ |} |} |}).
Proof.
  cbv zeta. intros Hdir Hfetch Hnone.
  rewrite !Export_run, Hdir. cbv zeta.
  destruct (fetchLoop_frame pageSize e fuel [] "")
    as (rf & csF & HcsF & HrunF).
  unfold fetchAllCRDs in *. rewrite !HrunF in *. simpl in Hfetch. subst rf.
  rewrite Hnone. simpl exportTypes. unfold ret.
  rewrite !ExportMetadata_run.
  destruct (osWriteMetadata h) as [err |].
  - exists csF, (Err err), [CallRemoveAll tmpDir]. simpl.
    rewrite <- !app_assoc. simpl.
    split; [reflexivity |]. split; [exact HcsF |].
    split; [repeat constructor; now right | discriminate].
  - rewrite !archive_run. cbv zeta. simpl.
    rewrite !lookup_insert_eq. simpl.
    repeat (case_inner; simpl).
    all: rewrite <- ?app_assoc; simpl.
    all: eexists csF, (Ok tt), _.
    all: (split; [reflexivity |]); (split; [exact HcsF |]).
    all: split; [| try discriminate].
    all: try (repeat (constructor;
                      [first [left; reflexivity | right; reflexivity] |]);
              constructor).
    intros _. apply lookup_insert_eq.
Qed.

(** A control plane that lists one type, of somebody else. *)
Lemma Export_nothing_in_scope_witness :
  fst (Export 500 goodHost (plane [[crdComposites]] true) 1 emptyWorld)
  = Some (Ok tt)
  ∧ ∃ csF r post,
      calls (snd (Export 500 goodHost (plane [[crdComposites]] true) 1
                    emptyWorld))
      = calls emptyWorld ++ CallTempDir "" "up" (Ok "/tmp/up1")
                            :: csF ++ CallExportMetadata ∅ r :: post
      ∧ Forall (λ c, stageOf c = StageDiscovery) csF
      ∧ Forall (λ c, stageOf c = StageArchive ∨ stageOf c = StageCleanup)
               post
      ∧ (fst (Export 500 goodHost (plane [[crdComposites]] true) 1
                emptyWorld) = Some (Ok tt) →
         files (snd (Export 500 goodHost (plane [[crdComposites]] true) 1
                       emptyWorld)) !! "sos.tar.gz"
         = Some {| fileMode := ownerOnly;
                   fileData :=
                     Packed {| treeTypes := ∅;
                               treeSummary :=
                                 Some {| summaryCounts := ∅ |} |} |}).
Proof.
  split; [vm_compute; reflexivity |].
  apply (Export_nothing_in_scope 500 goodHost (plane [[crdComposites]] true)
           1 emptyWorld [crdComposites] "/tmp/up1").
  - reflexivity.
  - vm_compute. reflexivity.
  - reflexivity.
Defined.

(** ** The output file handle *)

(** X8. [archive] closes the output file exactly when [Create] has opened
    it, once, as its last call, whether the permission change and the write
    worked or not. When [Create] did not work or was not reached, the run
    is an error and no file of the host has changed. The staging tree is
    never changed by [archive]. *)
Theorem archive_closes_output (h : Host) (e : ControlPlaneStateExporter)
    (dir : string) (w : World) :
  let out := OutputArchive (options e) in
  let run := archive h e dir w in
  ∃ cs, calls (snd run) = calls w ++ cs
    ∧ (In (CallCreate out (Ok tt)) cs ↔ In (CallClose out) cs)
    ∧ (In (CallClose out) cs →
       ∃ pre, cs = pre ++ [CallClose out] ∧ ¬ In (CallClose out) pre)
    ∧ (¬ In (CallCreate out (Ok tt)) cs →
       files (snd run) = files w ∧ ∃ err, fst run = Some (Err err))
    ∧ staging (snd run) = staging w.
Proof.
  cbv zeta. rewrite archive_run. cbv zeta.
  repeat (case_inner; simpl); eexists; (split; [reflexivity |]).
  all: split; [simpl; split; intros Hin;
               repeat destruct Hin as [Hin | Hin];
               try discriminate; try contradiction; auto 10 |].
  all: split; [intros Hin; simpl in Hin;
               repeat destruct Hin as [Hin | Hin];
               try discriminate; try contradiction |].
  all: try (match goal with
            | |- ∃ pre, ?cs = _ ∧ _ => exists (removelast cs)
            end;
            simpl; split; [reflexivity |]; intros Hpre;
            repeat destruct Hpre as [Hpre | Hpre];
            try discriminate; try contradiction).
  all: split; [| reflexivity].
  all: intros Hno; try (split; [reflexivity | eauto]; fail).
  all: exfalso; apply Hno; simpl; auto.
Qed.

(** ** The locator on a well-formed type *)

(** X10. For a type with exactly one version flagged as storage,
    [customResourceGVR] asks the mapper once, for that version, wherever it
    stands among the versions and whatever the others are; it returns the
    resource of the mapping, or the mapper's error wrapped with the name of
    the type, and changes nothing in the world but the call log. *)
Theorem customResourceGVR_single_storage (e : ControlPlaneStateExporter)
    (in_ : CustomResourceDefinition) (vr : CustomResourceDefinitionVersion)
    (w : World) :
  List.filter vrStorage (specVersions (crdSpec in_)) = [vr] →
  let r := resourceMapper e (GroupKindOf in_) (vrName vr) in
  customResourceGVR e in_ w =
  (Some match r with
        | Ok rm => Ok (rmResource rm)
        | Err err =>
            Err (Wrapf err "cannot get REST mapping for %q" (GetName in_))
        end,
   {| staging := staging w;
      files := files w;
      calls := calls w ++ [CallRESTMapping (GroupKindOf in_) (vrName vr) r]
   |}).
Proof.
  intros Hone. rewrite customResourceGVR_run, storageVersion_last.
  unfold storageNames. rewrite Hone. reflexivity.
Qed.

(** The bucket type: v1beta1 is served, v1beta2 is stored. *)
Lemma customResourceGVR_single_storage_witness :
  fst (customResourceGVR (plane [] true) crdBuckets emptyWorld)
  = Some (Ok {| gvrGroup := "s3.aws.upbound.io";
                gvrVersion := "v1beta2";
                gvrResource := "Buckets" |}).
Proof.
  rewrite (customResourceGVR_single_storage (plane [] true) crdBuckets
             (mkVersion "v1beta2" true true) emptyWorld).
  - reflexivity.
  - reflexivity.
Defined.

(** ** What the filter looks at *)

Lemma ownedByPackage_versions (refs : list OwnerReference) :
  ownedByPackage refs = true
  ↔ In "pkg.crossplane.io/v1" (map refAPIVersion refs).
Proof.
  rewrite ownedByPackage_spec, in_map_iff. split.
  - intros (ref & Hin & Hv). exists ref. auto.
  - intros (ref & Hv & Hin). exists ref. auto.
Qed.

(** X3. [shouldExport] looks at the name of the type and at the apiVersions
    of its owner references, as a set: two types with the same name whose
    owners have the same apiVersions get the same answer, whatever the
    order, number, kinds and names of the references and whatever the
    group, kind and versions of the types. *)
Theorem shouldExport_depends_on (a b : CustomResourceDefinition) :
  GetName a = GetName b →
  (∀ v, In v (map refAPIVersion (GetOwnerReferences a))
        ↔ In v (map refAPIVersion (GetOwnerReferences b))) →
  shouldExport a = shouldExport b.
Proof.
  intros Hname Hrefs. unfold shouldExport. rewrite Hname.
  assert (Howned : ownedByPackage (GetOwnerReferences a)
                   = ownedByPackage (GetOwnerReferences b)).
  { apply eq_true_iff_eq. rewrite !ownedByPackage_versions. apply Hrefs. }
  now rewrite Howned.
Qed.

(** The bucket type and a type of the same name with other owners of the
    same apiVersion and another kind. *)
Lemma shouldExport_depends_on_witness :
  shouldExport crdBuckets
  = shouldExport
      (mkCRD "buckets" "Pail" "s3.aws.upbound.io"
         [ownerRef "pkg.crossplane.io/v1" "ConfigurationRevision" "c";
          ownerRef "pkg.crossplane.io/v1" "ProviderRevision" "p"]
         []).
Proof.
  apply shouldExport_depends_on.
  - reflexivity.
  - intros v. simpl. tauto.
Defined.

(** * Properties of the kubeconfig entries *)

(** ** The key of a control plane *)

Lemma ReplaceAll_slash_cons (c : ascii) (rest : string) :
  ReplaceAll (String c rest) "/" "-"
  = String (if Ascii.eqb c "/" then "-"%char else c)
           (ReplaceAll rest "/" "-").
Proof.
  unfold ReplaceAll. cbn [replaceFrom String.prefix String.length Nat.sub].
  destruct (ascii_dec "/" c) as [<- | Hne].
  - destruct rest; reflexivity.
  - assert (Hc : Ascii.eqb c "/" = false)
      by (apply Ascii.eqb_neq; congruence).
    now rewrite Hc.
Qed.

Lemma ReplaceAll_slash_length (s : string) :
  String.length (ReplaceAll s "/" "-") = String.length s.
Proof.
  induction s as [|c s IH]; [reflexivity |].
  rewrite ReplaceAll_slash_cons. simpl. now rewrite IH.
Qed.

Lemma ReplaceAll_slash_gone (s : string) :
  hasChar "/" (ReplaceAll s "/" "-") = false.
Proof.
  induction s as [|c s IH]; [reflexivity |].
  rewrite ReplaceAll_slash_cons. simpl.
  destruct (Ascii.eqb c "/") eqn:Hc; [exact IH | now rewrite Hc].
Qed.

Lemma ReplaceAll_slash_id (s : string) :
  hasChar "/" s = false → ReplaceAll s "/" "-" = s.
Proof.
  induction s as [|c s IH]; [reflexivity |].
  rewrite ReplaceAll_slash_cons. simpl.
  destruct (Ascii.eqb c "/"); [discriminate |].
  intros H. now rewrite IH.
Qed.

Lemma ReplaceAll_slash_app (a b : string) :
  ReplaceAll (a +:+ b) "/" "-"
  = ReplaceAll a "/" "-" +:+ ReplaceAll b "/" "-".
Proof.
  induction a as [|c a IH]; [reflexivity |].
  change (String c a +:+ b) with (String c (a +:+ b)).
  rewrite !ReplaceAll_slash_cons, IH. reflexivity.
Qed.

Lemma ReplaceAll_slash_inj (a b : string) :
  hasChar "-" a = false → hasChar "-" b = false →
  ReplaceAll a "/" "-" = ReplaceAll b "/" "-" → a = b.
Proof.
  revert b. induction a as [|c a IH]; intros [|d b] Ha Hb Heq;
    rewrite ?ReplaceAll_slash_cons in Heq; try discriminate;
    [reflexivity |].
  simpl in Ha, Hb.
  destruct (Ascii.eqb c "-") eqn:Hc; [discriminate |].
  destruct (Ascii.eqb d "-") eqn:Hd; [discriminate |].
  injection Heq as Hhead Htail.
  f_equal; [| now apply IH].
  destruct (Ascii.eqb_spec c "/") as [-> | Hcs];
    destruct (Ascii.eqb_spec d "/") as [-> | Hds]; try reflexivity.
  - subst d. discriminate.
  - subst c. discriminate.
  - exact Hhead.
Qed.

Lemma prefix_append (p s : string) : String.prefix p (p +:+ s) = true.
Proof.
  induction p as [|c p IH]; [destruct s; reflexivity |].
  change (String c p +:+ s) with (String c (p +:+ s)). simpl.
  destruct (ascii_dec c c); [exact IH | contradiction].
Qed.

(** X11. The key of a control plane is "upbound-" followed by the id with
    every slash turned into a dash: it contains no slash, it is eight
    characters longer than the id, and for an id without slashes it is
    "upbound-" followed by the id itself. *)
Theorem controlPlaneKey_shape (id : string) :
  String.prefix "upbound-" (controlPlaneKey id) = true
  ∧ hasChar "/" (controlPlaneKey id) = false
  ∧ String.length (controlPlaneKey id) = 8 + String.length id
  ∧ (hasChar "/" id = false → controlPlaneKey id = "upbound-" +:+ id).
Proof.
  unfold controlPlaneKey. repeat split.
  - apply prefix_append.
  - apply (ReplaceAll_slash_gone id).
  - rewrite length_append, ReplaceAll_slash_length. reflexivity.
  - intros H. now rewrite ReplaceAll_slash_id.
Qed.

(** X12. Two ids that differ only in having a slash where the other has a
    dash get the same key; ids without dashes get different keys unless
    they are the same id. *)
Theorem controlPlaneKey_collisions :
  (∀ a b, controlPlaneKey (a +:+ "/" +:+ b)
          = controlPlaneKey (a +:+ "-" +:+ b))
  ∧ (∀ id1 id2,
       hasChar "-" id1 = false → hasChar "-" id2 = false →
       controlPlaneKey id1 = controlPlaneKey id2 → id1 = id2).
Proof.
  split.
  - intros a b. unfold controlPlaneKey.
    now rewrite !ReplaceAll_slash_app.
  - intros id1 id2 H1 H2 Hkey. unfold controlPlaneKey in Hkey.
    apply (ReplaceAll_slash_inj id1 id2 H1 H2).
    change ("upbound-" +:+ ReplaceAll id1 "/" "-")
      with (String "u" (String "p" (String "b" (String "o" (String "u"
              (String "n" (String "d" (String "-"
                 (ReplaceAll id1 "/" "-"))))))))) in Hkey.
    change ("upbound-" +:+ ReplaceAll id2 "/" "-")
      with (String "u" (String "p" (String "b" (String "o" (String "u"
              (String "n" (String "d" (String "-"
                 (ReplaceAll id2 "/" "-"))))))))) in Hkey.
    now injection Hkey.
Qed.

(** ** Applying entries to a kubeconfig file *)

Lemma setAll_union {A} (src dst : gmap string A) : setAll src dst = src ∪ dst.
Proof.
  unfold setAll.
  apply (map_fold_weak_ind (λ r m, r = m ∪ dst)).
  - now rewrite (left_id_L ∅ (∪)).
  - intros k v m r _ ->. now rewrite insert_union_l.
Qed.

Lemma setAll_lookup {A} (src dst : gmap string A) (k : string) :
  setAll src dst !! k
  = match src !! k with Some v => Some v | None => dst !! k end.
Proof.
  rewrite setAll_union, lookup_union.
  destruct (src !! k), (dst !! k); reflexivity.
Qed.

Lemma setAll_twice {A} (src dst : gmap string A) :
  setAll src (setAll src dst) = setAll src dst.
Proof.
  rewrite !setAll_union, (assoc_L (∪)).
  now rewrite (idemp_L (∪) src).
Qed.





(** * What a successful run implies *)

(** X16. No failure is passed over: when [Export] returns success, the
    staging root was made, discovery listed the types, the mapper resolved
    every in-scope type among them, and writing the summary, collecting
    the files, creating the output file, setting its mode and writing the
    archive all worked. *)
Theorem Export_success_requires (pageSize : Z) (h : Host)
    (e : ControlPlaneStateExporter) (fuel : nat) (w : World) :
  let out := OutputArchive (options e) in
  fst (Export pageSize h e fuel w) = Some (Ok tt) →
  ∃ tmpDir crds,
    osTempDir h "" "up" = Ok tmpDir
    ∧ fst (fetchAllCRDs pageSize e fuel w) = Some (Ok crds)
    ∧ (∀ crd, In crd crds → shouldExport crd = true →
         is_Some (coordinateOf e crd))
    ∧ osWriteMetadata h = None
    ∧ libFilesFromDisk h (tmpDir +:+ "/") = None
    ∧ osCreate h out = None
    ∧ osChmod h out ownerOnly = None
    ∧ libArchive h out = None.
Proof.
  cbv zeta. export_paths pageSize h e fuel w; try discriminate.
  repeat (case_inner; simpl); try discriminate.
  intros _. exists tmpDir, crds.
  split; [reflexivity |]. split; [reflexivity |]. split; [| auto 10].
  intros crd Hlisted Hscope.
  destruct (coordinateOf e crd) eqn:Hcoord; [eauto |].
  assert (Hin : In crd (List.filter shouldExport crds))
    by (apply List.filter_In; auto).
  specialize (HnoneE crd Hin Hcoord). discriminate.
Qed.

(** The run on the small control plane. *)
Lemma Export_success_requires_witness :
  ∃ tmpDir crds,
    osTempDir goodHost "" "up" = Ok tmpDir
    ∧ fst (fetchAllCRDs 500 (plane twoPages true) 2 emptyWorld)
      = Some (Ok crds)
    ∧ (∀ crd, In crd crds → shouldExport crd = true →
         is_Some (coordinateOf (plane twoPages true) crd))
    ∧ osWriteMetadata goodHost = None
    ∧ libFilesFromDisk goodHost (tmpDir +:+ "/") = None
    ∧ osCreate goodHost "sos.tar.gz" = None
    ∧ osChmod goodHost "sos.tar.gz" ownerOnly = None
    ∧ libArchive goodHost "sos.tar.gz" = None.
Proof.
  apply (Export_success_requires 500 goodHost (plane twoPages true) 2
           emptyWorld).
  vm_compute. reflexivity.
Defined.
